(** * Voice authentication for online exams: a shallow embedding

    The development follows [voice authentication.py].  The methods of
    [VoiceAuthenticator] become functions in a state and exception monad
    over a small file system, a [gmap] from paths to file contents.
    IEEE binary64 numbers are [spec_float] with the operations of
    [SpecFloat] at precision 53.  librosa, scikit-learn, the microphone
    and the clock are not part of the repository: they are interfaces
    (type classes) whose operations may raise.  Console output and the
    prompts ([print], [input]) are left out, and so is the menu of
    [ExamSystem], which only calls the methods below.

    The file system is flat: a file is known by the string the code
    passes as its path, writing a file always succeeds, and a file holds
    a recording or a pickled profile.  This is how the code meets the
    file system when the identity is a plain file name ([plain_id]), so
    that its temporary recordings are files of the working directory and
    its profile is a file of [models_dir]; an identity with a separator
    in it can name a missing directory or a second path to the same
    file.  The statements on enrollment that depend on the difference
    are made for plain identities. *)

From Stdlib Require Import ZArith QArith Lia Ascii String.
From Stdlib Require Import Floats.SpecFloat.
From stdpp Require Import base option list strings gmap pretty.

Local Open Scope string_scope.
Local Open Scope Z_scope.

(** ** Binary64 numbers *)

Module Float64.

Definition prec : Z := 53.
Definition emax : Z := 1024.

(** [float(n)] for a Python int: round to nearest, ties to even. *)
Definition of_int (n : Z) : spec_float := binary_normalize prec emax n 0 false.

Definition mul : spec_float -> spec_float -> spec_float := SFmul prec emax.

(** [x > y] and [x <= y] on floats; both are false when a NaN is involved. *)
Definition gt (x y : spec_float) : bool := SFltb y x.
Definition le (x y : spec_float) : bool := SFleb x y.

(** The literal [0.7]: the binary64 number nearest to 7/10. *)
Definition lit_0_7 : spec_float := S754_finite false 6305039478318694 (-53).

(** The default threshold [-50], as the float it is compared as. *)
Definition lit_neg_50 : spec_float := of_int (-50).

(** [n >= x] for a Python int [n] and a float [x].  Python compares
  the two exactly (no rounding of [n]). *)
Definition int_ge (n : Z) (x : spec_float) : bool :=
  match x with
  | S754_nan => false
  | S754_infinity s => s
  | S754_zero _ => 0 <=? n
  | S754_finite s m e =>
      let v := if s then Z.neg m else Z.pos m in
      if 0 <=? e then v * 2 ^ e <=? n else v <=? n * 2 ^ (- e)
  end.

End Float64.

(** ** Exceptions and the monad of the methods *)

Inductive exn : Type :=
  | ValueError
  | ParameterError
  | FileNotFoundError
  | UnpicklingError
  | OverflowError
  | LibraryError (msg : string).

Inductive result (A : Type) : Type :=
  | Return (a : A)
  | Raise (e : exn).
Arguments Return {A} a.
Arguments Raise {A} e.

(** ** Arrays *)

(** A two-dimensional array is the list of its rows. *)
Abbreviation matrix := (list (list spec_float)) (only parsing).
Abbreviation waveform := (list spec_float) (only parsing).

Definition uniform (m : matrix) : bool :=
  match m with
  | [] => true
  | r :: rs => forallb (fun r' => Nat.eqb (length r') (length r)) rs
  end.

(** [np.vstack]: the rows of the arguments, in order; the arguments must
    agree on the number of columns and there must be at least one. *)
Definition np_vstack (ms : list matrix) : result matrix :=
  match ms with
  | [] => Raise ValueError
  | _ => let m := concat ms in
         if uniform m then Return m else Raise ValueError
  end.

Fixpoint transpose (ncols : nat) (m : matrix) : matrix :=
  match m with
  | [] => repeat [] ncols
  | r :: rs => zip_with cons r (transpose ncols rs)
  end.

(** [a.T] *)
Definition np_T (m : matrix) : matrix := transpose (length (hd [] m)) m.

(** ** Stored data *)

(** The fitted [StandardScaler]: per-dimension mean and scale. *)
Record StandardScaler : Type := {
  mean_ : list spec_float;
  scale_ : list spec_float
}.

(** The fitted [GaussianMixture]: weights, means and diagonal covariances. *)
Record GaussianMixture : Type := {
  weights_ : list spec_float;
  means_ : matrix;
  covariances_ : matrix
}.

(** The dictionary [model_data] that [register_student] pickles. *)
Record model_data : Type := {
  md_gmm : GaussianMixture;
  md_scaler : StandardScaler;
  md_student_id : string;
  md_registration_date : string
}.

Inductive file : Type :=
  | WavFile (rate : Z) (data : waveform)
  | PickleFile (obj : model_data).

Record state : Type := {
  fs : gmap string file;   (* the files, by path *)
  tick : nat               (* number of recordings made so far *)
}.

Definition M (A : Type) : Type := state -> result A * state.

Global Instance M_ret : MRet M := fun A a st => (Return a, st).
Global Instance M_bind : MBind M := fun A B f c st =>
  match c st with
  | (Return a, st') => f a st'
  | (Raise e, st') => (Raise e, st')
  end.

(** A library call: its result or its exception, the state unchanged. *)
Definition lift {A} (r : result A) : M A := fun st => (r, st).

(** ** The external collaborators *)

(** librosa: [load], [feature.mfcc] and [feature.delta]. *)
Class Librosa : Type := {
  librosa_load : file -> Z -> result (waveform * Z);
  librosa_mfcc : waveform -> Z -> nat -> result matrix;
  librosa_delta : matrix -> nat -> result matrix
}.

(** scikit-learn: [StandardScaler] and [GaussianMixture].  [gmm_fit]
    takes the constructor arguments [n_components], [covariance_type],
    [max_iter] and [random_state], the state of numpy's global generator
    and the data.  Nothing is assumed of what the library computes. *)
Class Sklearn : Type := {
  scaler_fit_transform : matrix -> result (StandardScaler * matrix);
  scaler_transform : StandardScaler -> matrix -> result matrix;
  gmm_fit : nat -> string -> nat -> option Z -> Z -> matrix -> result GaussianMixture;
  gmm_score : GaussianMixture -> matrix -> result spec_float
}.

(** The microphone, the clock and numpy's global generator: what the
    [n]-th recording of a given number of frames captures, what
    [datetime.now()] formats to, and the generator's state. *)
Class World : Type := {
  sd_rec : nat -> Z -> waveform;
  datetime_now : nat -> string;
  np_random : nat -> Z
}.

(** ** os.path and files *)

Definition starts_with_sep (s : string) : bool :=
  match s with
  | String "/"%char _ => true
  | _ => false
  end.

Fixpoint ends_with_sep (s : string) : bool :=
  match s with
  | EmptyString => false
  | String c EmptyString => Ascii.eqb c "/"%char
  | String _ s' => ends_with_sep s'
  end.

(** [os.path.join a b] (POSIX). *)
Definition os_path_join (a b : string) : string :=
  if starts_with_sep b then b
  else if (String.eqb a "" || ends_with_sep a)%bool then a +:+ b
  else a +:+ "/" +:+ b.

(** An identity that can stand in a file name as it is: no separator, no
    NUL character, and short enough for the names built from it. *)
Definition plain_id (student_id : string) : bool :=
  (String.length student_id <=? 100)%nat &&
  forallb (fun c => negb (Ascii.eqb c "/"%char || Ascii.eqb c "000"%char))
    (list_ascii_of_string student_id).

Definition os_path_exists (path : string) : M bool :=
  fun st => (Return (bool_decide (is_Some (fs st !! path))), st).

Definition os_remove (path : string) : M unit :=
  fun st => (Return tt, {| fs := delete path (fs st); tick := tick st |}).

Definition write_file (path : string) (f : file) : M unit :=
  fun st => (Return tt, {| fs := <[path := f]> (fs st); tick := tick st |}).

(** [pickle.load] of an open file: the pickled profile, or the
    exception raised on a recording. *)
Definition pickle_load (path : string) : M model_data :=
  fun st =>
    match fs st !! path with
    | Some (PickleFile obj) => (Return obj, st)
    | Some (WavFile _ _) => (Raise UnpicklingError, st)
    | None => (Raise FileNotFoundError, st)
    end.

(** ** class VoiceAuthenticator *)

Record VoiceAuthenticator : Type := {
  models_dir : string;
  sample_rate : Z;
  duration : Z
}.

(** [__init__] *)
Definition init (models_dir : option string) : VoiceAuthenticator :=
  {| models_dir := default "voice_models" models_dir;
     sample_rate := 16000;
     duration := 5 |}.

Section Methods.
Context `{Librosa, Sklearn, World}.
Variable self : VoiceAuthenticator.

(** The body of the [try] block of [extract_features]. *)
Definition extract_features_body (f : option file) : result matrix :=
  match f with
  | None => Raise FileNotFoundError
  | Some f =>
      match librosa_load f (sample_rate self) with
      | Raise e => Raise e
      | Return (y, sr) =>
          match librosa_mfcc y sr 13 with
          | Raise e => Raise e
          | Return mfcc =>
              match librosa_delta mfcc 1 with
              | Raise e => Raise e
              | Return mfcc_delta =>
                  match librosa_delta mfcc 2 with
                  | Raise e => Raise e
                  | Return mfcc_delta2 =>
                      match np_vstack [mfcc; mfcc_delta; mfcc_delta2] with
                      | Raise e => Raise e
                      | Return features => Return (np_T features)
                      end
                  end
              end
          end
      end
  end.

(** [extract_features]: any exception of the body is caught and turned
  into [None]. *)
Definition extract_features (audio_path : string) : M (option matrix) :=
  fun st =>
    match extract_features_body (fs st !! audio_path) with
    | Return features => (Return (Some features), st)
    | Raise _ => (Return None, st)
    end.

(** [record_audio]: record [int(duration * sample_rate)] frames and
  write them to [filename].  The write is taken to succeed, as it does
  for a file of an existing directory. *)
Definition record_audio (filename : string) (duration' : option Z) : M string :=
  fun st =>
    let duration' := default (duration self) duration' in
    let recording := sd_rec (tick st) (duration' * sample_rate self) in
    (Return filename,
     {| fs := <[filename := WavFile (sample_rate self) recording]> (fs st);
        tick := S (tick st) |}).

Definition remove_if_exists (path : string) : M unit :=
  e ← os_path_exists path;
  if e : bool then os_remove path else mret tt.

Definition temp_registration (student_id : string) (i : nat) : string :=
  "temp_registration_" +:+ student_id +:+ "_" +:+ pretty i +:+ ".wav".

Definition temp_verification (student_id : string) : string :=
  "temp_verification_" +:+ student_id +:+ ".wav".

Definition model_path (student_id : string) : string :=
  os_path_join (models_dir self) (student_id +:+ "_voice_model.pkl").

(** The recording loop of [register_student]: [n] more samples,
  starting at index [i]. *)
Fixpoint record_samples (student_id : string) (n i : nat)
    (all_features : list matrix) : M (list matrix) :=
  match n with
  | O => mret all_features
  | S n' =>
      let temp_file := temp_registration student_id i in
      _ ← record_audio temp_file None;
      features ← extract_features temp_file;
      let all_features :=
        match features with
        | Some features => (all_features ++ [features])%list
        | None => all_features
        end in
      _ ← remove_if_exists temp_file;
      record_samples student_id n' (S i) all_features
  end.

(** Normalisation and training in [register_student]. *)
Definition train (global_rng : Z) (all_features : list matrix)
    : result (StandardScaler * GaussianMixture) :=
  match np_vstack all_features with
  | Raise e => Raise e
  | Return combined_features =>
      match scaler_fit_transform combined_features with
      | Raise e => Raise e
      | Return (scaler, normalized_features) =>
          match gmm_fit 16 "diag" 200 (Some 42) global_rng normalized_features with
          | Raise e => Raise e
          | Return gmm => Return (scaler, gmm)
          end
      end
  end.

Definition now : M string := fun st => (Return (datetime_now (tick st)), st).

Definition global_rng : M Z := fun st => (Return (np_random (tick st)), st).

Definition register_student (student_id : string) (num_samples : option Z) : M bool :=
  let num_samples := default 3 num_samples in
  all_features ← record_samples student_id (Z.to_nat num_samples) 0 [];
  if Nat.eqb (length all_features) 0 then mret false
  else
    rng ← global_rng;
    '(scaler, gmm) ← lift (train rng all_features);
    date ← now;
    let model_data :=
      {| md_gmm := gmm; md_scaler := scaler;
         md_student_id := student_id; md_registration_date := date |} in
    _ ← write_file (model_path student_id) (PickleFile model_data);
    mret true.

Definition verify_student (student_id : string) (threshold : option spec_float) : M bool :=
  let threshold := default Float64.lit_neg_50 threshold in
  e ← os_path_exists (model_path student_id);
  if negb e then mret false
  else
    model_data ← pickle_load (model_path student_id);
    let gmm := md_gmm model_data in
    let scaler := md_scaler model_data in
    let temp_file := temp_verification student_id in
    _ ← record_audio temp_file None;
    features ← extract_features temp_file;
    _ ← remove_if_exists temp_file;
    match features with
    | None => mret false
    | Some features =>
        normalized_features ← lift (scaler_transform scaler features);
        score ← lift (gmm_score gmm normalized_features);
        if Float64.gt score threshold then mret true else mret false
    end.

(** The loop of [continuous_verification]: [n] more checks. *)
Fixpoint verification_checks (student_id : string) (n : nat) (passed_checks : Z) : M Z :=
  match n with
  | O => mret passed_checks
  | S n' =>
      result ← verify_student student_id None;
      verification_checks student_id n'
        (if result : bool then passed_checks + 1 else passed_checks)
  end.

(** [num_checks * 0.7]: the int is converted to a float first, which
  raises when it is too large. *)
Definition int_mul_float (n : Z) (x : spec_float) : result spec_float :=
  match Float64.of_int n with
  | S754_infinity _ => Raise OverflowError
  | n' => Return (Float64.mul n' x)
  end.

(** The test [passed_checks >= num_checks * 0.7] that ends
  [continuous_verification]. *)
Definition overall_passed (passed_checks num_checks : Z) : result bool :=
  match int_mul_float num_checks Float64.lit_0_7 with
  | Raise e => Raise e
  | Return bound => Return (Float64.int_ge passed_checks bound)
  end.

Definition continuous_verification (student_id : string) (num_checks : option Z) : M bool :=
  let num_checks := default 3 num_checks in
  passed_checks ← verification_checks student_id (Z.to_nat num_checks) 0;
  passed ← lift (overall_passed passed_checks num_checks);
  if passed : bool then mret true else mret false.

End Methods.

Arguments int_mul_float : clear implicits.
Arguments overall_passed : clear implicits.
Arguments Float64.lit_neg_50 : simpl never.
Arguments Float64.lit_0_7 : simpl never.
Arguments extract_features_body : simpl never.
Arguments train : simpl never.

(** ** Runs of the methods, described from outside *)

Section Runs.
Context `{Librosa, Sklearn, World}.
Variable self : VoiceAuthenticator.

(** What the microphone writes for the recording made at tick [t]. *)
Definition recorded (t : nat) : file :=
  WavFile (sample_rate self) (sd_rec t (duration self * sample_rate self)).

(** The features [extract_features] returns for that recording. *)
Definition features_at (t : nat) : option matrix :=
  match extract_features_body self (Some (recorded t)) with
  | Return features => Some features
  | Raise _ => None
  end.

(** [all_features] after the recording loop of [register_student] ran
    [n] times from state [st]: the features of the samples whose
    extraction succeeded, in order. *)
Definition enrollment_features (st : state) (n : nat) : list matrix :=
  omap features_at (seq (tick st) n).

(** The files after the temporary recordings [i], ..., [i + n - 1] of a
    registration were made and removed. *)
Fixpoint temps_removed (student_id : string) (n i : nat)
    (files : gmap string file) : gmap string file :=
  match n with
  | O => files
  | S n' => temps_removed student_id n' (S i) (delete (temp_registration student_id i) files)
  end.

(** The state after a temporary verification recording was made and removed. *)
Definition recorded_and_removed (path : string) (st : state) : state :=
  {| fs := delete path (fs st); tick := S (tick st) |}.

(** [checkpoints student_id st outcomes st']: from [st], successive calls
    of [verify_student student_id] return [outcomes], one after the
    other, and end in [st']. *)
Inductive checkpoints (student_id : string) : state -> list bool -> state -> Prop :=
  | checkpoints_nil st : checkpoints student_id st [] st
  | checkpoints_cons st outcome st1 outcomes st2 :
      verify_student self student_id None st = (Return outcome, st1) ->
      checkpoints student_id st1 outcomes st2 ->
      checkpoints student_id st (outcome :: outcomes) st2.

(** The three ways a verification fails, after the error taxonomy of
    the specification: no profile for the identity, no features from the
    verification recording, or a score at or below the threshold. *)
Inductive failure_cause (student_id : string) (threshold : spec_float) (st : state) : Prop :=
  | no_profile :
      fs st !! model_path self student_id = None ->
      failure_cause student_id threshold st
  | extraction_failure profile :
      fs st !! model_path self student_id = Some (PickleFile profile) ->
      features_at (tick st) = None ->
      failure_cause student_id threshold st
  | verification_failure profile features normalized_features score :
      fs st !! model_path self student_id = Some (PickleFile profile) ->
      features_at (tick st) = Some features ->
      scaler_transform (md_scaler profile) features = Return normalized_features ->
      gmm_score (md_gmm profile) normalized_features = Return score ->
      Float64.le score threshold = true ->
      failure_cause student_id threshold st.

End Runs.

(** Number of passed checkpoints in a sequence of outcomes. *)
Definition pass_count (outcomes : list bool) : Z :=
  Z.of_nat (length (List.filter (fun b : bool => b) outcomes)).

(** The ratio test of the specification, in exact rational arithmetic:
    [passCount / N >= 0.7]. *)
Definition ratio_reached (passCount N : Z) : Prop :=
  (7 # 10 <= inject_Z passCount / inject_Z N)%Q.

(** The last character of a path. *)
Fixpoint last_char (s : string) : option ascii :=
  match s with
  | EmptyString => None
  | String c s' =>
      match last_char s' with
      | Some d => Some d
      | None => Some c
      end
  end.

(** ** A small instance of the collaborators, to run the methods

    The instance is deliberately simple: every cepstral row copies the
    samples, deltas leave their argument unchanged, the scaler is the
    identity, and the score of a recording is its first sample.  An
    empty recording cannot be loaded, and a mixture needs at least as
    many rows as components. *)

Module Sim.

Definition zero : spec_float := S754_zero false.

#[export] Instance librosa : Librosa := {|
  librosa_load f sr :=
    match f with
    | WavFile _ [] => Raise (LibraryError "empty signal")
    | WavFile _ y => Return (y, sr)
    | PickleFile _ => Raise (LibraryError "not an audio file")
    end;
  librosa_mfcc y sr n_mfcc := Return (repeat y n_mfcc);
  librosa_delta data order := Return data
  |}.

#[export] Instance sklearn : Sklearn := {|
  scaler_fit_transform X :=
    Return ({| mean_ := hd [] X; scale_ := map (fun _ => zero) (hd [] X) |}, X);
  scaler_transform scaler X := Return X;
  gmm_fit n_components covariance_type max_iter random_state global_rng X :=
    if (length X <? n_components)%nat then Raise ValueError
    else Return {| weights_ := []; means_ := firstn n_components X; covariances_ := [] |};
  gmm_score gmm X :=
    match X with
    | (x :: _) :: _ => Return x
    | _ => Raise ValueError
    end
  |}.

(** The recordings the microphone will capture, in order. *)
Definition world (recordings : list (list spec_float)) : World := {|
  sd_rec n frames := nth n recordings [];
  datetime_now n := "2024-01-01 09:00:00";
  np_random n := Z.of_nat n
  |}.

Definition auth : VoiceAuthenticator := init None.

Definition tone (n : Z) (len : nat) : list spec_float := repeat (Float64.of_int n) len.

Definition empty_state : state := {| fs := ∅; tick := 0 |}.

(** A voice that scores [-10], a voice that scores [-60], and a
    recording that cannot be read. *)
Definition genuine : list spec_float := tone (-10) 20.
Definition impostor : list spec_float := tone (-60) 20.
Definition silence : list spec_float := [].

(** Three enrollment recordings, then what later recordings capture. *)
Definition session (checks : list (list spec_float)) : World :=
  world ([genuine; genuine; genuine] ++ checks)%list.

(** The state after ["s1"] enrolled with the three recordings. *)
Definition enrolled (checks : list (list spec_float)) : state :=
  snd (register_student (H1 := session checks) auth "s1" None empty_state).

(** The worlds of the runs below. *)
Definition W_genuine : World := session [genuine].
Definition W_impostor : World := session [impostor].
Definition W_silence : World := session [silence].
Definition W_mixed : World := session [genuine; impostor; genuine].
Definition W_twice : World := session [genuine; genuine; genuine].
Definition W_partial : World := world [silence; genuine; genuine].

(** The state after one more verification of ["s1"]. *)
Definition checked (W : World) (st : state) : state :=
  snd (verify_student (H1 := W) auth "s1" None st).

Definition no_profile_data : model_data :=
  {| md_gmm := {| weights_ := []; means_ := []; covariances_ := [] |};
   md_scaler := {| mean_ := []; scale_ := [] |};
   md_student_id := ""; md_registration_date := "" |}.

(** The profile stored for an identity, if any. *)
Definition profile_of (st : state) (student_id : string) : model_data :=
  match fs st !! model_path auth student_id with
  | Some (PickleFile profile) => profile
  | _ => no_profile_data
  end.

End Sim.

(** ** class ExamSystem

    [registered_students] is a mutable attribute: the method that
    changes it returns the object as it is afterwards, next to its
    result. *)

Record ExamSystem : Type := {
  voice_auth : VoiceAuthenticator;
  registered_students : gset string
}.

(** [ExamSystem.__init__] *)
Definition exam_init : ExamSystem :=
  {| voice_auth := init None; registered_students := ∅ |}.

Section ExamMethods.
Context `{Librosa, Sklearn, World}.
Variable self : ExamSystem.

Definition register_for_exam (student_id : string) : M (bool * ExamSystem) :=
  success ← register_student (voice_auth self) student_id None;
  if success : bool
  then mret (success,
             {| voice_auth := voice_auth self;
                registered_students := {[student_id]} ∪ registered_students self |})
  else mret (success, self).

Definition start_exam (student_id : string) : M bool :=
  verified ← verify_student (voice_auth self) student_id None;
  if verified : bool then mret true else mret false.

Definition conduct_exam_with_monitoring (student_id : string) : M bool :=
  started ← start_exam student_id;
  if negb started then mret false
  else
    result ← continuous_verification (voice_auth self) student_id (Some 2);
    mret result.

(** The object after a call of [register_for_exam]: the returned one, or
    [self] when the call raised. *)
Definition exam_after (r : result (bool * ExamSystem) * state) : ExamSystem :=
  match fst r with
  | Return (_, self') => self'
  | Raise _ => self
  end.

(** Every registered student has a profile in the store. *)
Definition registered_have_profiles (st : state) : Prop :=
  forall student_id,
    student_id ∈ registered_students self ->
    exists profile,
      fs st !! model_path (voice_auth self) student_id = Some (PickleFile profile).

End ExamMethods.

(** More runs of the small instance. *)

Module SimExam.
Import Sim.

(** A recording whose score is not a number. *)
Definition hiss : list spec_float := repeat S754_nan 20.

Definition W_hiss : World := session [hiss].
Definition W_exam : World := session [genuine; genuine; impostor].
Definition W_denied : World := session [impostor].

(** An exam system in which ["s1"] registered. *)
Definition exam_s1 : ExamSystem :=
  {| voice_auth := auth; registered_students := {["s1"]} |}.

(** The same state with one more file in the store. *)
Definition cluttered (st : state) : state :=
  {| fs := <["notes.wav" := WavFile 8000 impostor]> (fs st); tick := tick st |}.

(** A store in which the profile of ["s1"] was overwritten by a recording. *)
Definition corrupted : state :=
  {| fs := <[model_path auth "s1" := WavFile 16000 genuine]> (fs (enrolled [genuine]));
     tick := tick (enrolled [genuine]) |}.


End SimExam.

(** ** A second instance, with the shapes of the libraries

    A recording has the number of frames that was asked for.  The
    cepstrum has one column per hop of 512 samples, [1 + len / 512] in
    all, and cannot be computed from a signal with a value that is not
    finite; a delta needs 9 frames; a mixture needs at least as many
    rows as it has components. *)

Module Lab.

Definition is_finite (x : spec_float) : bool :=
  match x with
  | S754_zero _ | S754_finite _ _ _ => true
  | S754_infinity _ | S754_nan => false
  end.

#[export] Instance librosa : Librosa := {|
  librosa_load f sr :=
    match f with
    | WavFile _ y => Return (y, sr)
    | PickleFile _ => Raise (LibraryError "not an audio file")
    end;
  librosa_mfcc y sr n_mfcc :=
    if forallb is_finite y
    then Return (repeat (map (fun j => nth (j * 512) y Sim.zero)
                             (seq 0 (1 + length y / 512))) n_mfcc)
    else Raise ParameterError;
  librosa_delta data order :=
    if (length (hd [] data) <? 9)%nat then Raise ParameterError else Return data
  |}.

#[export] Instance sklearn : Sklearn := Sim.sklearn.

(** [n] samples of a periodic signal: the [period] over and over, [rest]
    being what is left of the current one. *)
Fixpoint samples (period rest : list spec_float) (n : nat) : list spec_float :=
  match n with
  | O => []
  | S n' =>
      match rest with
      | x :: rest' => x :: samples period rest' n'
      | [] =>
          match period with
          | x :: rest' => x :: samples period rest' n'
          | [] => Sim.zero :: samples period [] n'
          end
      end
  end.

(** The periods of the signals the microphone will capture, in order. *)
Definition world (periods : list (list spec_float)) : World := {|
  sd_rec n frames := samples (nth n periods []) [] (Z.to_nat frames);
  datetime_now n := "2024-01-01 09:00:00";
  np_random n := Z.of_nat n
  |}.

(** A voice: seven samples between -1/2 and 1/2, the first one [k/8].
    A broken capture: no sample is a number. *)
Definition eighths (k : Z) : spec_float :=
  Float64.mul (Float64.of_int k) (S754_finite false 4503599627370496 (-55)).

Definition voice (k : Z) : list spec_float :=
  map eighths [k; 4; -3; 0; 2; -4; 1].

Definition broken : list spec_float := [S754_nan].

(** The authenticator of [__init__], and one whose [sample_rate] was set
    to 1000 afterwards: its recordings of 5 seconds have 5000 samples. *)
Definition auth : VoiceAuthenticator := init None.

Definition auth_1k : VoiceAuthenticator :=
  {| models_dir := models_dir auth; sample_rate := 1000; duration := duration auth |}.

Definition W_voices : World := world [voice 0; voice 1; voice 2].
Definition W_first_broken : World := world [broken; voice 1; voice 2].
Definition W_all_broken : World := world [broken; broken; broken].
Definition W_then_broken : World :=
  world [voice 0; voice 1; voice 2; broken; broken; broken].
Definition W_then_short : World := world [voice 0; voice 1; voice 2; voice 3].

(** The state after ["s1"] enrolled with three recordings of 5 seconds. *)
Definition enrolled (W : World) : state :=
  snd (register_student (H1 := W) auth "s1" None Sim.empty_state).

End Lab.

(** * Facts about binary64 arithmetic *)

Section Float64Facts.

(** ** The order on floats *)

Ltac compare_cases :=
  repeat match goal with
  | H : context [Z.compare ?a ?b] |- _ =>
      destruct (Z.compare_spec a b); try discriminate
  | |- context [Z.compare ?a ?b] =>
      destruct (Z.compare_spec a b); try discriminate
  | H : context [Pos.compare ?a ?b] |- _ =>
      destruct (Pos.compare_spec a b); try discriminate
  | |- context [Pos.compare ?a ?b] =>
      destruct (Pos.compare_spec a b); try discriminate
  end.

Lemma SFcompare_antisym x y :
  SFcompare y x = match SFcompare x y with Some c => Some (CompOpp c) | None => None end.
Proof.
  destruct x as [sx|sx| |sx mx ex], y as [sy|sy| |sy my ey];
    try destruct sx; try destruct sy; cbn; try reflexivity;
    change (Pos.compare_cont Eq ?a ?b) with (Pos.compare a b);
    rewrite (Z.compare_antisym ex ey), (Pos.compare_antisym mx my);
    destruct (ex ?= ey)%Z; cbn; try reflexivity;
    destruct (mx ?= my)%positive; reflexivity.
Qed.

Lemma SFltb_SFleb_trans t1 t2 s :
  SFleb t1 t2 = true -> SFltb t2 s = true -> SFltb t1 s = true.
Proof.
  unfold SFleb, SFltb.
  destruct t1 as [s1|s1| |s1 m1 e1], t2 as [s2|s2| |s2 m2 e2], s as [s3|s3| |s3 m3 e3];
    try destruct s1; try destruct s2; try destruct s3; cbn;
    try discriminate; try reflexivity;
    change (Pos.compare_cont Eq ?a ?b) with (Pos.compare a b);
    intros; compare_cases; subst; try lia; try reflexivity.
Qed.

(** ** Rounding: [shr], [round_nearest_even] and [binary_round_aux] *)

Lemma digits2_pos_size p : digits2_pos p = Pos.size p.
Proof. induction p; cbn; congruence. Qed.

Lemma digits2_pos_bounds p :
  2 ^ (Z.pos (digits2_pos p) - 1) <= Z.pos p < 2 ^ Z.pos (digits2_pos p).
Proof.
  rewrite digits2_pos_size. split.
  - pose proof (Pos.size_le p) as Hle.
    assert (Hz : Z.pos (2 ^ Pos.size p) <= Z.pos p~0) by (apply Pos2Z.pos_le_pos; exact Hle).
    rewrite Pos2Z.inj_pow in Hz.
    replace (Z.pos (Pos.size p)) with ((Z.pos (Pos.size p) - 1) + 1) in Hz by lia.
    rewrite Z.pow_add_r in Hz by lia. change (2 ^ 1) with 2 in Hz.
    change (Z.pos p~0) with (2 * Z.pos p) in Hz. lia.
  - pose proof (Pos.size_gt p) as Hgt.
    assert (Hz : Z.pos p < Z.pos (2 ^ Pos.size p)) by (apply Pos2Z.pos_lt_pos; exact Hgt).
    rewrite Pos2Z.inj_pow in Hz. exact Hz.
Qed.

Lemma digits2_pos_unique p n :
  2 ^ (n - 1) <= Z.pos p < 2 ^ n -> Z.pos (digits2_pos p) = n.
Proof.
  intros [Hlo Hhi]. pose proof (digits2_pos_bounds p) as [Hlo' Hhi'].
  set (d := Z.pos (digits2_pos p)) in *.
  assert (0 < n).
  { destruct (Z_lt_le_dec 0 n) as [|Hn]; [assumption|].
    assert (2 ^ n <= 2 ^ 0) by (destruct (Z_lt_le_dec n 0);
      [rewrite Z.pow_neg_r by assumption; cbn; lia | apply Z.pow_le_mono_r; lia]).
    change (2 ^ 0) with 1 in *. lia. }
  assert (d - 1 < n) by (apply (Z.pow_lt_mono_r_iff 2); lia).
  assert (n - 1 < d) by (apply (Z.pow_lt_mono_r_iff 2); lia).
  lia.
Qed.

Lemma iter_pos_nat {A} (f : A -> A) p : forall x,
  SpecFloat.iter_pos f p x = Nat.iter (Pos.to_nat p) f x.
Proof.
  induction p as [p IH|p IH|]; intros x; cbn [SpecFloat.iter_pos].
  - rewrite !IH, Pos2Nat.inj_xI. cbn [Nat.iter]. rewrite <- !Nat.iter_succ_r.
    rewrite <- Nat.iter_add. f_equal. lia.
  - rewrite !IH, Pos2Nat.inj_xO. rewrite <- Nat.iter_add. f_equal. lia.
  - reflexivity.
Qed.

Lemma shr_1_nonneg m r s :
  0 <= m -> shr_1 {| shr_m := m; shr_r := r; shr_s := s |}
            = {| shr_m := m / 2; shr_r := Z.odd m; shr_s := r || s |}.
Proof.
  intros Hm. destruct m as [|[p|p|]|p]; try lia; cbn [shr_1].
  - reflexivity.
  - f_equal. change (Z.pos p~1) with (2 * Z.pos p + 1).
    apply Z.div_unique with (r := 1); lia.
  - f_equal. change (Z.pos p~0) with (2 * Z.pos p).
    apply Z.div_unique with (r := 0); lia.
  - reflexivity.
Qed.

Lemma odd_div_pow2 x n : 0 <= n -> Z.odd (x / 2 ^ n) = Z.testbit x n.
Proof. intros Hn. rewrite Z.testbit_odd, Z.shiftr_div_pow2 by lia. reflexivity. Qed.

Lemma mod_pow2_succ x n :
  0 <= n -> x mod 2 ^ (n + 1) = x mod 2 ^ n + 2 ^ n * Z.b2z (Z.testbit x n).
Proof.
  intros Hn. rewrite Z.pow_add_r by lia. change (2 ^ 1) with 2.
  rewrite Z.rem_mul_r by lia. f_equal. f_equal.
  rewrite <- odd_div_pow2 by lia. rewrite Zmod_odd. destruct (Z.odd _); reflexivity.
Qed.

Lemma iter_shr_1 x n :
  0 <= x ->
  Nat.iter (S n) shr_1 {| shr_m := x; shr_r := false; shr_s := false |} =
  {| shr_m := x / 2 ^ Z.of_nat (S n);
     shr_r := Z.testbit x (Z.of_nat n);
     shr_s := negb (x mod 2 ^ Z.of_nat n =? 0) |}.
Proof.
  intros Hx. induction n as [|n IH].
  - cbn [Nat.iter]. rewrite shr_1_nonneg by assumption.
    change (Z.of_nat 0) with 0. change (Z.of_nat 1) with 1.
    rewrite Z.bit0_odd, Z.pow_0_r, Z.pow_1_r, Z.mod_1_r. reflexivity.
  - rewrite Nat.iter_succ, IH. rewrite shr_1_nonneg
      by (apply Z.div_pos; [assumption | apply Z.pow_pos_nonneg; lia]).
    f_equal.
    + rewrite Z.div_div by (try apply Z.pow_pos_nonneg; lia).
      f_equal. rewrite (Nat2Z.inj_succ (S n)). rewrite Z.pow_succ_r by lia. lia.
    + rewrite odd_div_pow2 by lia. reflexivity.
    + rewrite (Nat2Z.inj_succ n). rewrite <- Z.add_1_r. rewrite mod_pow2_succ by lia.
      assert (0 <= x mod 2 ^ Z.of_nat n) by (apply Z.mod_pos_bound, Z.pow_pos_nonneg; lia).
      assert (0 < 2 ^ Z.of_nat n) by (apply Z.pow_pos_nonneg; lia).
      destruct (Z.testbit x (Z.of_nat n)); cbn [Z.b2z orb].
      * symmetry. apply negb_true_iff, Z.eqb_neq. lia.
      * rewrite Z.mul_0_r, Z.add_0_r. reflexivity.
Qed.

(** Rounding to nearest even after a right shift by [k > 0]. *)
Lemma round_shifted x k :
  0 <= x -> 0 < k ->
  let mrs := SpecFloat.iter_pos shr_1 (Z.to_pos k) {| shr_m := x; shr_r := false; shr_s := false |} in
  let mr := round_nearest_even (shr_m mrs) (loc_of_shr_record mrs) in
  (mr = x / 2 ^ k + 1 /\ x mod 2 ^ k <> 0) \/
  (mr = x / 2 ^ k /\ 2 * (x mod 2 ^ k) <= 2 ^ k).
Proof.
  intros Hx Hk mrs mr. subst mr mrs. rewrite iter_pos_nat.
  destruct (Pos.to_nat (Z.to_pos k)) as [|n] eqn:En; [lia|].
  assert (Ek : k = Z.of_nat n + 1) by lia.
  rewrite iter_shr_1 by assumption.
  replace (Z.of_nat (S n)) with k by lia.
  clear En. subst k.
  set (q := x / 2 ^ (Z.of_nat n + 1)).
  rewrite mod_pow2_succ by lia.
  rewrite (Z.pow_add_r 2 (Z.of_nat n) 1) by lia. change (2 ^ 1) with 2.
  assert (0 <= x mod 2 ^ Z.of_nat n < 2 ^ Z.of_nat n)
    by (apply Z.mod_pos_bound, Z.pow_pos_nonneg; lia).
  cbn [shr_m loc_of_shr_record].
  destruct (Z.testbit x (Z.of_nat n)); cbn [Z.b2z];
    destruct (Z.eqb_spec (x mod 2 ^ Z.of_nat n) 0) as [E0|E0];
    cbn [negb loc_of_shr_record round_nearest_even].
  - destruct (Z.even q); [right | left]; lia.
  - left. lia.
  - right. lia.
  - right. lia.
Qed.

Lemma div_pow2_bounds x D :
  53 < D -> 2 ^ (D - 1) <= x < 2 ^ D ->
  2 ^ 52 <= x / 2 ^ (D - 53) < 2 ^ 53.
Proof.
  intros HD [Hlo Hhi].
  assert (Hk : 0 < 2 ^ (D - 53)) by (apply Z.pow_pos_nonneg; lia).
  assert (E1 : 2 ^ (D - 1) = 2 ^ 52 * 2 ^ (D - 53))
    by (rewrite <- Z.pow_add_r by lia; f_equal; lia).
  assert (E2 : 2 ^ D = 2 ^ 53 * 2 ^ (D - 53))
    by (rewrite <- Z.pow_add_r by lia; f_equal; lia).
  split.
  - apply Z.div_le_lower_bound; lia.
  - apply Z.div_lt_upper_bound; lia.
Qed.

Lemma round_aux_spec px ex :
  let D := Z.pos (digits2_pos px) in
  let k := D - 53 in
  53 < D -> -1074 <= ex + k -> ex + k + 1 <= 971 ->
  exists m e mr,
    binary_round_aux 53 1024 false (Z.pos px) ex loc_Exact = S754_finite false m e /\
    ((e = ex + k /\ Z.pos m = mr) \/ (e = ex + k + 1 /\ 2 * Z.pos m = mr)) /\
    ((mr = Z.pos px / 2 ^ k + 1 /\ Z.pos px mod 2 ^ k <> 0) \/
     (mr = Z.pos px / 2 ^ k /\ 2 * (Z.pos px mod 2 ^ k) <= 2 ^ k)).
Proof.
  intros D k HD Hlo Hhi.
  pose proof (round_shifted (Z.pos px) k ltac:(lia) ltac:(lia)) as Hround.
  pose proof (div_pow2_bounds (Z.pos px) D HD (digits2_pos_bounds px)) as Hq.
  fold k in Hq. cbv zeta in Hround.
  unfold binary_round_aux, shr_fexp. cbn [shr_record_of_loc Zdigits2]. fold D.
  replace (fexp 53 1024 (D + ex) - ex) with (Z.pos (Z.to_pos k))
    by (unfold fexp, emin; rewrite Z2Pos.id by lia; lia).
  cbn [shr].
  set (mrs := SpecFloat.iter_pos shr_1 (Z.to_pos k) _) in *.
  set (mr := round_nearest_even (shr_m mrs) (loc_of_shr_record mrs)) in *.
  rewrite Z2Pos.id by lia.
  assert (Hmr : 2 ^ 52 <= mr <= 2 ^ 53) by lia.
  destruct mr as [|pm|pm] eqn:Emr; try lia.
  cbn [Zdigits2 shr_record_of_loc].
  destruct (Z.eq_dec (Z.pos pm) (2 ^ 53)) as [E53|N53].
  - assert (Epm : pm = (2 ^ 53)%positive) by lia. subst pm.
    exists (2 ^ 52)%positive, (ex + k + 1), (2 ^ 53).
    split; [|split; [right; split; reflexivity | exact Hround]].
    replace (digits2_pos (2 ^ 53)) with 54%positive by (vm_compute; reflexivity).
    replace (fexp 53 1024 (54 + (ex + k)) - (ex + k)) with 1
      by (unfold fexp, emin; lia).
    replace (2 ^ 53)%positive with (xO (2 ^ 52)%positive) by (vm_compute; reflexivity).
    cbn [shr SpecFloat.iter_pos shr_1 shr_m].
    replace (ex + k + 1 <=? 1024 - 53) with true by (symmetry; apply Z.leb_le; lia).
    reflexivity.
  - exists pm, (ex + k), (Z.pos pm).
    split; [|split; [left; split; reflexivity | exact Hround]].
    assert (Ed : Z.pos (digits2_pos pm) = 53) by (apply digits2_pos_unique; lia).
    rewrite Ed.
    replace (fexp 53 1024 (53 + (ex + k)) - (ex + k)) with 0
      by (unfold fexp, emin; lia).
    cbn [shr shr_m].
    replace (ex + k <=? 1024 - 53) with true by (symmetry; apply Z.leb_le; lia).
    reflexivity.
Qed.

Lemma pos_iter_xO n sh : Z.pos (Pos.iter xO n sh) = Z.pos n * 2 ^ Z.pos sh.
Proof.
  induction sh as [|sh IH] using Pos.peano_ind.
  - cbn. lia.
  - rewrite Pos.iter_succ, Pos2Z.inj_succ, Z.pow_succ_r by lia.
    change (Z.pos (Pos.iter xO n sh)~0) with (2 * Z.pos (Pos.iter xO n sh)). lia.
Qed.

Lemma round_aux_exact px ex :
  Z.pos (digits2_pos px) = 53 -> -1074 <= ex <= 971 ->
  binary_round_aux 53 1024 false (Z.pos px) ex loc_Exact = S754_finite false px ex.
Proof.
  intros Ed Hex. unfold binary_round_aux, shr_fexp.
  cbn [shr_record_of_loc Zdigits2]. rewrite Ed.
  replace (fexp 53 1024 (53 + ex) - ex) with 0 by (unfold fexp, emin; lia).
  cbn [shr shr_m loc_of_shr_record round_nearest_even shr_record_of_loc Zdigits2].
  rewrite Ed.
  replace (fexp 53 1024 (53 + ex) - ex) with 0 by (unfold fexp, emin; lia).
  cbn [shr shr_m].
  replace (ex <=? 1024 - 53) with true by (symmetry; apply Z.leb_le; lia).
  reflexivity.
Qed.

Lemma of_int_spec N :
  1 <= N < 2 ^ 52 ->
  exists mz d,
    Float64.of_int N = S754_finite false mz (d - 53) /\
    0 < d <= 52 /\ 2 ^ (d - 1) <= N /\
    Z.pos mz = N * 2 ^ (53 - d) /\ 2 ^ 52 <= Z.pos mz < 2 ^ 53.
Proof.
  intros HN. destruct N as [|n|n]; try lia.
  pose proof (digits2_pos_bounds n) as Hd.
  set (d := Z.pos (digits2_pos n)) in *.
  assert (Hd52 : d <= 52).
  { destruct (Z_lt_le_dec 52 d) as [Hgt|]; [|lia].
    assert (2 ^ 52 <= 2 ^ (d - 1)) by (apply Z.pow_le_mono_r; lia). lia. }
  assert (Hd0 : 0 < d) by (unfold d; lia).
  unfold Float64.of_int, Float64.prec, Float64.emax, binary_normalize, binary_round. fold d.
  replace (fexp 53 1024 (d + 0)) with (d - 53) by (unfold fexp, emin; lia).
  unfold shl_align.
  replace (d - 53 - 0) with (Z.neg (Z.to_pos (53 - d)))
    by (rewrite <- Pos2Z.opp_pos, Z2Pos.id by lia; lia).
  set (mz := Pos.iter xO n (Z.to_pos (53 - d))).
  assert (Emz : Z.pos mz = Z.pos n * 2 ^ (53 - d))
    by (unfold mz; rewrite pos_iter_xO, Z2Pos.id by lia; reflexivity).
  assert (Hmz : 2 ^ 52 <= Z.pos mz < 2 ^ 53).
  { rewrite Emz.
    assert (0 < 2 ^ (53 - d)) by (apply Z.pow_pos_nonneg; lia).
    assert (E1 : 2 ^ 52 = 2 ^ (d - 1) * 2 ^ (53 - d))
      by (rewrite <- Z.pow_add_r by lia; f_equal; lia).
    assert (E2 : 2 ^ 53 = 2 ^ d * 2 ^ (53 - d))
      by (rewrite <- Z.pow_add_r by lia; f_equal; lia).
    rewrite E1, E2. split.
    - apply Z.mul_le_mono_nonneg_r; lia.
    - apply Z.mul_lt_mono_pos_r; lia. }
  exists mz, d. split; [|repeat split; try lia].
  apply round_aux_exact; [apply digits2_pos_unique; lia | lia].
Qed.

(** The arithmetic core: [mr] is the rounded mantissa of [N * U * M] at
    scale [K], and [S] is the weight of one unit of [p] at that scale. *)
Lemma boundary_arith N p U K S q rem mr :
  1 <= N < 3 * 2 ^ 48 ->
  2 ^ 52 <= N * U < 2 ^ 53 ->
  U = 8 \/ 16 <= U ->
  0 < K <= 2 ^ 53 -> 0 < S ->
  S * K = U * 2 ^ 53 ->
  N * U * 6305039478318694 = K * q + rem -> 0 <= rem < K ->
  (mr = q + 1 /\ rem <> 0) \/ (mr = q /\ 2 * rem <= K) ->
  (mr <= p * S <-> 7 * N <= 10 * p).
Proof.
  intros HN HNU HU HK HS HSK Hx Hrem Hmr.
  change (2 ^ 48) with 281474976710656 in *.
  change (2 ^ 52) with 4503599627370496 in *.
  change (2 ^ 53) with 9007199254740992 in *.
  split.
  - intros Hle.
    destruct (Z_le_gt_dec (7 * N) (10 * p)) as [|Hgt]; [assumption|exfalso].
    assert (Hp : 10 * p <= 7 * N - 1) by lia.
    assert (HKq : K * mr <= K * (p * S)) by (apply Z.mul_le_mono_nonneg_l; lia).
    replace (K * (p * S)) with (p * U * 9007199254740992) in HKq by nia.
    assert (H10 : 10 * (p * U) <= (7 * N - 1) * U) by nia.
    destruct Hmr as [[-> Hne]|[-> Hhalf]]; [nia|].
    destruct HU as [->|HU]; nia.
  - intros Hle.
    assert (HU0 : 0 < U) by lia.
    assert (Hlt : N * U * 6305039478318694 < p * U * 9007199254740992) by nia.
    replace (p * U * 9007199254740992) with (K * (p * S)) in Hlt by nia.
    assert (Hq : q < p * S) by nia.
    destruct Hmr as [[-> Hne]|[-> Hhalf]]; lia.
Qed.

(** The float test at the end of a session is the exact one for fewer
    than [3 * 2 ^ 48] checks. *)
Lemma mul_0_7_int_ge N p :
  1 <= N < 3 * 2 ^ 48 ->
  Float64.int_ge p (Float64.mul (Float64.of_int N) Float64.lit_0_7) = (7 * N <=? 10 * p).
Proof.
  intros HN.
  destruct (of_int_spec N) as (mz & d & Eof & Hd & HdN & Emz & Hmz);
    [change (2 ^ 48) with 281474976710656 in HN;
     change (2 ^ 52) with 4503599627370496; lia|].
  assert (Hd50 : d <= 50).
  { destruct (Z_lt_le_dec 50 d) as [Hgt|]; [|lia].
    assert (2 ^ 50 <= 2 ^ (d - 1)) by (apply Z.pow_le_mono_r; lia).
    change (2 ^ 48) with 281474976710656 in HN.
    change (2 ^ 50) with 1125899906842624 in *. lia. }
  assert (HU : 2 ^ (53 - d) = 8 \/ 16 <= 2 ^ (53 - d)).
  { destruct (Z.eq_dec d 50) as [->|Hne]; [left; reflexivity|right].
    change 16 with (2 ^ 4). apply Z.pow_le_mono_r; lia. }
  rewrite Eof. unfold Float64.mul, Float64.lit_0_7, Float64.prec, Float64.emax, SFmul.
  cbn [xorb].
  set (px := (mz * 6305039478318694)%positive).
  assert (Epx : Z.pos px = N * 2 ^ (53 - d) * 6305039478318694)
    by (unfold px; rewrite Pos2Z.inj_mul, Emz; reflexivity).
  pose proof (digits2_pos_bounds px) as HD.
  set (D := Z.pos (digits2_pos px)) in *.
  assert (HDr : 105 <= D <= 106).
  { assert (Hx : 2 ^ 104 <= Z.pos px < 2 ^ 106).
    { unfold px. rewrite Pos2Z.inj_mul.
      change (2 ^ 52) with 4503599627370496 in Hmz.
      change (2 ^ 53) with 9007199254740992 in Hmz.
      change (2 ^ 104) with 20282409603651670423947251286016.
      change (2 ^ 106) with 81129638414606681695789005144064. nia. }
    split.
    - destruct (Z_lt_le_dec D 105) as [Hlt|]; [|lia].
      assert (2 ^ D <= 2 ^ 104) by (apply Z.pow_le_mono_r; lia). lia.
    - destruct (Z_lt_le_dec 106 D) as [Hgt|]; [|lia].
      assert (2 ^ 106 <= 2 ^ (D - 1)) by (apply Z.pow_le_mono_r; lia). lia. }
  destruct (round_aux_spec px (d - 53 + -53)) as (m & e & mr & Eres & He & Hmr);
    fold D; try lia.
  fold D in He, Hmr. rewrite Eres. unfold Float64.int_ge.
  set (k := D - 53) in *. set (e' := d - 53 + -53 + k) in *.
  assert (He' : e' <= -3) by (unfold e', k; lia).
  replace (0 <=? e) with false by (symmetry; apply Z.leb_gt; lia).
  assert (HK : 0 < 2 ^ k <= 2 ^ 53)
    by (split; [apply Z.pow_pos_nonneg; lia | apply Z.pow_le_mono_r; unfold k; lia]).
  assert (HS : 0 < 2 ^ (- e')) by (apply Z.pow_pos_nonneg; lia).
  assert (HSK : 2 ^ (- e') * 2 ^ k = 2 ^ (53 - d) * 2 ^ 53)
    by (rewrite <- !Z.pow_add_r by (unfold k; lia); f_equal; unfold e'; lia).
  pose proof (Z.div_mod (Z.pos px) (2 ^ k) ltac:(lia)) as Hdm.
  pose proof (Z.mod_pos_bound (Z.pos px) (2 ^ k) ltac:(lia)) as Hrem.
  rewrite Epx in Hdm at 1.
  pose proof (boundary_arith N p (2 ^ (53 - d)) (2 ^ k) (2 ^ (- e'))
                (Z.pos px / 2 ^ k) (Z.pos px mod 2 ^ k) mr HN
                ltac:(rewrite <- Emz; exact Hmz) HU HK HS HSK Hdm Hrem Hmr) as Hiff.
  apply eq_true_iff_eq. rewrite !Z.leb_le, <- Hiff.
  destruct He as [[-> <-]|[-> <-]]; [reflexivity|].
  replace (- e') with (- (e' + 1) + 1) by lia.
  rewrite Z.pow_add_r by lia. change (2 ^ 1) with 2. lia.
Qed.

(** The two float literals of the program. *)
Example lit_0_7_nearest :
  SFdiv 53 1024 (Float64.of_int 7) (Float64.of_int 10) = Float64.lit_0_7.
Proof. vm_compute. reflexivity. Qed.

Example lit_neg_50_exact :
  Float64.lit_neg_50 = S754_finite true (50 * 2 ^ 47) (-47).
Proof. vm_compute. reflexivity. Qed.

End Float64Facts.

(** * The methods, equationally *)

Section Properties.
Context `{Librosa, Sklearn, World}.
Variable self : VoiceAuthenticator.

Lemma verify_student_eq student_id threshold st :
  verify_student self student_id threshold st =
  match fs st !! model_path self student_id with
  | None => (Return false, st)
  | Some (WavFile _ _) => (Raise UnpicklingError, st)
  | Some (PickleFile profile) =>
      let st' := recorded_and_removed (temp_verification student_id) st in
      match features_at self (tick st) with
      | None => (Return false, st')
      | Some features =>
          match scaler_transform (md_scaler profile) features with
          | Raise e => (Raise e, st')
          | Return normalized_features =>
              match gmm_score (md_gmm profile) normalized_features with
              | Raise e => (Raise e, st')
              | Return score =>
                  (Return (Float64.gt score (default Float64.lit_neg_50 threshold)), st')
              end
          end
      end
  end.
Proof.
  unfold verify_student, mbind, M_bind, os_path_exists, pickle_load, remove_if_exists,
    record_audio, extract_features, os_remove, lift, mret, M_ret, features_at, recorded,
    recorded_and_removed.
  destruct (fs st !! model_path self student_id) as [[rate data|profile]|] eqn:E;
    cbn; rewrite ?E; cbn; try reflexivity.
  rewrite lookup_insert_eq.
  destruct (extract_features_body self _) as [features|e]; cbn.
  - unfold mbind, M_bind, os_path_exists; cbn. rewrite lookup_insert_eq. cbn.
    rewrite delete_insert_eq.
    destruct (scaler_transform _ _) as [nf|e]; [|reflexivity].
    destruct (gmm_score _ _) as [score|e]; [|reflexivity].
    destruct (Float64.gt _ _); reflexivity.
  - unfold mbind, M_bind, os_path_exists; cbn. rewrite lookup_insert_eq. cbn.
    rewrite delete_insert_eq. reflexivity.
Qed.

Lemma enrollment_features_S st st' n :
  tick st' = S (tick st) ->
  enrollment_features self st (S n) =
  match features_at self (tick st) with
  | Some features => features :: enrollment_features self st' n
  | None => enrollment_features self st' n
  end.
Proof.
  intros E. unfold enrollment_features. rewrite E. cbn.
  destruct (features_at self (tick st)); reflexivity.
Qed.

Lemma record_samples_eq student_id n : forall i all_features st,
  record_samples self student_id n i all_features st =
  (Return (all_features ++ enrollment_features self st n)%list,
   {| fs := temps_removed student_id n i (fs st); tick := (tick st + n)%nat |}).
Proof.
  induction n as [|n IH]; intros i all_features st.
  - cbn. unfold mret, M_ret, enrollment_features. cbn.
    rewrite app_nil_r, Nat.add_0_r. destruct st; reflexivity.
  - rewrite (enrollment_features_S st
               {| fs := delete (temp_registration student_id i) (fs st);
                  tick := S (tick st) |}) by reflexivity.
    cbn [record_samples].
    unfold mbind, M_bind, record_audio, extract_features, remove_if_exists, os_path_exists,
      os_remove, features_at, recorded. cbn. rewrite lookup_insert_eq.
    destruct (extract_features_body self _) as [features|e]; cbn;
      unfold mbind, M_bind; cbn; rewrite lookup_insert_eq; cbn;
      rewrite IH; cbn; rewrite delete_insert_eq;
      rewrite <- ?Nat.add_succ_comm, <- ?app_assoc;
      reflexivity.
Qed.

Lemma register_student_eq student_id num_samples st :
  register_student self student_id num_samples st =
  let n := Z.to_nat (default 3 num_samples) in
  let st' := {| fs := temps_removed student_id n 0 (fs st); tick := (tick st + n)%nat |} in
  let all_features := enrollment_features self st n in
  match all_features with
  | [] => (Return false, st')
  | _ :: _ =>
      match train (np_random (tick st')) all_features with
      | Raise e => (Raise e, st')
      | Return (scaler, gmm) =>
          (Return true,
           {| fs := <[model_path self student_id :=
                       PickleFile {| md_gmm := gmm; md_scaler := scaler;
                                     md_student_id := student_id;
                                     md_registration_date := datetime_now (tick st') |}]>
                      (fs st');
              tick := tick st' |})
      end
  end.
Proof.
  unfold register_student, mbind, M_bind. rewrite record_samples_eq. cbn.
  destruct (enrollment_features self st _) as [|features all_features]; [reflexivity|].
  cbn. unfold lift.
  destruct (train _ _) as [[scaler gmm]|e]; reflexivity.
Qed.

End Properties.

Section Paths.

Lemma last_char_app a b :
  last_char (a +:+ b) =
  match last_char b with
  | Some d => Some d
  | None => last_char a
  end.
Proof.
  induction a as [|c a IH].
  - change ("" +:+ b) with b. destruct (last_char b); reflexivity.
  - change (String c a +:+ b) with (String c (a +:+ b)). cbn [last_char].
    rewrite IH. destruct (last_char b); reflexivity.
Qed.

Lemma last_char_model_path self student_id :
  last_char (model_path self student_id) = Some "l"%char.
Proof.
  unfold model_path, os_path_join.
  repeat match goal with |- context [if ?b then _ else _] => destruct b end;
    rewrite !last_char_app; reflexivity.
Qed.

Lemma last_char_temp_verification student_id :
  last_char (temp_verification student_id) = Some "v"%char.
Proof. unfold temp_verification. rewrite !last_char_app. reflexivity. Qed.

Lemma last_char_temp_registration student_id i :
  last_char (temp_registration student_id i) = Some "v"%char.
Proof. unfold temp_registration. rewrite !last_char_app. reflexivity. Qed.

Lemma model_path_not_temp_verification self student_id student_id' :
  temp_verification student_id <> model_path self student_id'.
Proof.
  intros E. apply (f_equal last_char) in E.
  rewrite last_char_model_path, last_char_temp_verification in E. discriminate.
Qed.

Lemma model_path_not_temp_registration self student_id i student_id' :
  temp_registration student_id i <> model_path self student_id'.
Proof.
  intros E. apply (f_equal last_char) in E.
  rewrite last_char_model_path, last_char_temp_registration in E. discriminate.
Qed.

Lemma temps_removed_model_path self student_id student_id' n : forall i files,
  temps_removed student_id n i files !! model_path self student_id' =
  files !! model_path self student_id'.
Proof.
  induction n as [|n IH]; intros i files; cbn; [reflexivity|].
  rewrite IH. apply lookup_delete_ne, model_path_not_temp_registration.
Qed.

End Paths.


(** * Feature extraction *)

Section Extraction.
Context `{Librosa}.
Variable self : VoiceAuthenticator.

(** [extract_features] returns in every case, leaves the state as it
    was, and its result is [None] exactly when the body of the [try]
    block raised. *)
Lemma extract_features_catches audio_path st :
  extract_features self audio_path st =
  (Return match extract_features_body self (fs st !! audio_path) with
          | Return features => Some features
          | Raise _ => None
          end, st).
Proof.
  unfold extract_features.
  destruct (extract_features_body self _) as [features|e]; reflexivity.
Qed.

Lemma zip_with_cons_shape (r : list spec_float) : forall (cols : list (list spec_float)) n,
  length cols = length r ->
  Forall (fun c => length c = n) cols ->
  length (zip_with cons r cols) = length r /\
  Forall (fun c => length c = S n) (zip_with cons r cols).
Proof.
  induction r as [|x r IH]; intros [|c cols] n Hlen Hcols; try discriminate.
  - split; [reflexivity | constructor].
  - cbn in Hlen. injection Hlen as Hlen. inversion Hcols as [|? ? Hc Hrest]; subst.
    destruct (IH cols (length c) Hlen Hrest) as [IHlen IHcols].
    cbn. split; [congruence | constructor; [reflexivity | assumption]].
Qed.

Lemma transpose_shape T (m : list (list spec_float)) :
  Forall (fun r => length r = T) m ->
  length (transpose T m) = T /\
  Forall (fun c => length c = length m) (transpose T m).
Proof.
  induction m as [|r rs IH]; intros Hrows.
  - cbn. split; [apply repeat_length|]. clear Hrows.
    induction T as [|T IHT]; cbn; constructor; [reflexivity | assumption].
  - inversion Hrows as [|? ? Hr Hrs]; subst.
    destruct (IH Hrs) as [IHlen IHcols]. cbn [transpose length].
    destruct (zip_with_cons_shape r (transpose (length r) rs) (length rs)) as [Hl Hc];
      [congruence | assumption |].
    split; assumption.
Qed.

Lemma uniform_rows (m : list (list spec_float)) :
  uniform m = true -> Forall (fun r => length r = length (hd [] m)) m.
Proof.
  destruct m as [|r rs]; cbn; [constructor|].
  intros Hall. constructor; [reflexivity|].
  rewrite forallb_forall in Hall. apply List.Forall_forall.
  intros r' Hin. apply Nat.eqb_eq, Hall, Hin.
Qed.

(** When [mfcc] returns [n_mfcc] rows and [delta] returns as many rows
    as it is given, every row of the extracted matrix has 39 entries. *)
Lemma extract_features_rows f features :
  (forall y sr n mfcc, librosa_mfcc y sr n = Return mfcc -> length mfcc = n) ->
  (forall data order d, librosa_delta data order = Return d -> length d = length data) ->
  extract_features_body self f = Return features ->
  Forall (fun row => length row = 39%nat) features.
Proof.
  intros Hmfcc Hdelta. unfold extract_features_body.
  destruct f as [f|]; [|discriminate].
  destruct (librosa_load f _) as [[y sr]|e]; [|discriminate].
  destruct (librosa_mfcc y sr 13) as [mfcc|e] eqn:Em; [|discriminate].
  destruct (librosa_delta mfcc 1) as [d1|e] eqn:E1; [|discriminate].
  destruct (librosa_delta mfcc 2) as [d2|e] eqn:E2; [|discriminate].
  apply Hmfcc in Em. apply Hdelta in E1, E2.
  unfold np_vstack. cbn [concat].
  set (m := (mfcc ++ d1 ++ d2 ++ [])%list).
  destruct (uniform m) eqn:Eu; [|discriminate].
  intros [= <-]. unfold np_T.
  assert (Hlen : length m = 39%nat)
    by (unfold m; rewrite !length_app; cbn [length]; lia).
  rewrite <- Hlen. apply transpose_shape, uniform_rows, Eu.
Qed.

End Extraction.

(** * Verification *)

Section Verification.
Context `{Librosa, Sklearn, World}.
Variable self : VoiceAuthenticator.

(** C2. A verification of an enrolled identity returns [True] exactly
    when a score is computed for the recording and that score is
    strictly greater than the threshold; without a threshold argument
    the threshold is the float [-50]. *)
Theorem verify_student_decision student_id threshold st profile :
  fs st !! model_path self student_id = Some (PickleFile profile) ->
  fst (verify_student self student_id threshold st) = Return true <->
  exists features normalized_features score,
    features_at self (tick st) = Some features /\
    scaler_transform (md_scaler profile) features = Return normalized_features /\
    gmm_score (md_gmm profile) normalized_features = Return score /\
    Float64.gt score (default (Float64.of_int (-50)) threshold) = true.
Proof.
  intros Hprofile. rewrite verify_student_eq, Hprofile. cbv zeta.
  change Float64.lit_neg_50 with (Float64.of_int (-50)).
  destruct (features_at self (tick st)) as [features|]; cbn.
  - destruct (scaler_transform _ features) as [nf|e] eqn:Et; cbn.
    + destruct (gmm_score _ nf) as [score|e] eqn:Es; cbn.
      * split.
        -- intros [= Hgt]. eauto 10.
        -- intros (f & nf' & score' & [= <-] & Et' & Es' & Hgt).
           rewrite Et in Et'. injection Et' as <-.
           rewrite Es in Es'. injection Es' as <-. rewrite Hgt. reflexivity.
      * split; [discriminate|].
        intros (f & nf' & score' & [= <-] & Et' & Es' & _).
        rewrite Et in Et'. injection Et' as <-. rewrite Es in Es'. discriminate.
    + split; [discriminate|].
      intros (f & nf' & score' & [= <-] & Et' & _). rewrite Et in Et'. discriminate.
  - split; [discriminate|]. intros (f & _ & _ & [=] & _).
Qed.

(** C7. For the same recording (hence the same score), lowering the
    threshold keeps a passed verification passed: if the verification
    passes with threshold [t2] and [t1 <= t2], it passes with [t1]. *)
Theorem verify_student_threshold_monotone student_id t1 t2 st :
  Float64.le t1 t2 = true ->
  fst (verify_student self student_id (Some t2) st) = Return true ->
  fst (verify_student self student_id (Some t1) st) = Return true.
Proof.
  intros Hle. rewrite !verify_student_eq. cbv zeta.
  destruct (fs st !! model_path self student_id) as [[rate data|profile]|];
    cbn; try discriminate.
  destruct (features_at self (tick st)) as [features|]; cbn; try discriminate.
  destruct (scaler_transform _ features) as [nf|e]; cbn; try discriminate.
  destruct (gmm_score _ nf) as [score|e]; cbn; try discriminate.
  intros [= Hgt]. f_equal. unfold Float64.gt, Float64.le in *.
  eapply SFltb_SFleb_trans; eassumption.
Qed.

(** Verification touches no path but that of its temporary recording. *)
Lemma verify_student_frame student_id threshold st path :
  path <> temp_verification student_id ->
  fs (snd (verify_student self student_id threshold st)) !! path = fs st !! path.
Proof.
  intros Hpath. rewrite verify_student_eq. cbv zeta.
  destruct (fs st !! model_path self student_id) as [[rate data|profile]|];
    cbn; try reflexivity.
  destruct (features_at self (tick st)) as [features|]; cbn;
    [|apply lookup_delete_ne; congruence].
  destruct (scaler_transform _ features) as [nf|e]; cbn;
    [|apply lookup_delete_ne; congruence].
  destruct (gmm_score _ nf) as [score|e]; cbn; apply lookup_delete_ne; congruence.
Qed.

(** C9. A verification call leaves the stored profile of the enrolled
    identity (scaler, mixture, identity and date) as it was. *)
Theorem verify_student_preserves_profile student_id threshold st profile :
  fs st !! model_path self student_id = Some (PickleFile profile) ->
  fs (snd (verify_student self student_id threshold st)) !! model_path self student_id
  = Some (PickleFile profile).
Proof.
  intros Hprofile. rewrite verify_student_frame; [assumption|].
  intros E. symmetry in E. revert E. apply model_path_not_temp_verification.
Qed.

(** C10. A missing profile, a failed extraction and a score at or below
    the threshold all make [verify_student] return the same [False]. *)
Theorem verify_student_failures_alike student_id threshold st :
  failure_cause self student_id (default Float64.lit_neg_50 threshold) st ->
  fst (verify_student self student_id threshold st) = Return false.
Proof.
  intros Hcause. rewrite verify_student_eq. cbv zeta.
  destruct Hcause as [Hnone | profile Hprofile Hnone
                     | profile features nf score Hprofile Hfeat Ht Hs Hle].
  - rewrite Hnone. reflexivity.
  - rewrite Hprofile, Hnone. reflexivity.
  - rewrite Hprofile, Hfeat, Ht, Hs. cbn. f_equal.
    unfold Float64.gt, Float64.le, SFltb, SFleb in *.
    rewrite (SFcompare_antisym score).
    destruct (SFcompare score _) as [[]|]; try discriminate; reflexivity.
Qed.

End Verification.

(** * Enrollment *)

Section Enrollment.
Context `{Librosa, Sklearn, World}.
Variable self : VoiceAuthenticator.

(** C3, as the code has it, for an identity that is a plain file name.
    There is no guard between the pooled matrix and the library:
    [register_student] returns [False] exactly when no recording yielded
    features; otherwise, whatever the number of rows of the pooled
    matrix and whatever its values, it ends as stacking, normalisation
    and fitting end, with their exception when one of them raises and
    with [True] when they return. *)
Theorem register_student_training_unguarded student_id num_samples st :
  plain_id student_id = true ->
  let n := Z.to_nat (default 3 num_samples) in
  let all_features := enrollment_features self st n in
  fst (register_student self student_id num_samples st) =
    match all_features with
    | [] => Return false
    | _ :: _ =>
        match train (np_random (tick st + n)%nat) all_features with
        | Raise e => Raise e
        | Return _ => Return true
        end
    end.
Proof.
  intros _ n all_features. rewrite register_student_eq. cbv zeta.
  fold n all_features.
  destruct all_features as [|features rest]; [reflexivity|]. cbn.
  destruct (train _ _) as [[scaler gmm]|e]; reflexivity.
Qed.

(** C4, as the code has it, for an identity that is a plain file name.
    The features that are pooled are exactly those of the recordings
    whose extraction succeeded, so a recording without features does not
    end the attempt.  When no recording yields features the attempt
    returns [False]; when some do and stacking, normalisation or fitting
    raises, that exception reaches the caller; in both cases every
    profile in the store is as it was before the attempt.  When training
    returns, the attempt returns [True] and the profile is written. *)
Theorem register_student_failure_keeps_profiles student_id num_samples st :
  plain_id student_id = true ->
  let n := Z.to_nat (default 3 num_samples) in
  let all_features := enrollment_features self st n in
  let attempt := register_student self student_id num_samples st in
  let profiles_kept :=
    forall student_id',
      fs (snd attempt) !! model_path self student_id' = fs st !! model_path self student_id' in
  (forall features,
     features ∈ all_features <->
     exists i, (i < n)%nat /\ features_at self (tick st + i) = Some features) /\
  (all_features = [] -> fst attempt = Return false /\ profiles_kept) /\
  (forall e,
     all_features <> [] -> train (np_random (tick st + n)%nat) all_features = Raise e ->
     fst attempt = Raise e /\ profiles_kept) /\
  (forall scaler gmm,
     all_features <> [] ->
     train (np_random (tick st + n)%nat) all_features = Return (scaler, gmm) ->
     fst attempt = Return true /\
     fs (snd attempt) !! model_path self student_id =
       Some (PickleFile {| md_gmm := gmm; md_scaler := scaler;
                           md_student_id := student_id;
                           md_registration_date := datetime_now (tick st + n)%nat |})).
Proof.
  intros _ n all_features attempt profiles_kept.
  subst attempt profiles_kept. rewrite register_student_eq. cbv zeta.
  fold n all_features. split; [|split; [|split]].
  - intros features. unfold all_features, enrollment_features.
    rewrite list_elem_of_omap. split.
    + intros (t & Ht & Hf). apply elem_of_seq in Ht.
      exists (t - tick st)%nat. split; [lia|].
      replace (tick st + (t - tick st))%nat with t by lia. exact Hf.
    + intros (i & Hi & Hf). exists (tick st + i)%nat. split; [|exact Hf].
      apply elem_of_seq. lia.
  - intros ->. cbn. split; [reflexivity|].
    intros sid'. apply temps_removed_model_path.
  - intros e Hsome He. destruct all_features as [|features rest]; [congruence|].
    cbn [tick]. rewrite He. cbn. split; [reflexivity|].
    intros sid'. apply temps_removed_model_path.
  - intros scaler gmm Hsome Htrain. destruct all_features as [|features rest]; [congruence|].
    cbn [tick]. rewrite Htrain. cbn. split; [reflexivity|].
    apply lookup_insert_eq.
Qed.

End Enrollment.

(** * The verification session *)

Section Session.
Context `{Librosa, Sklearn, World}.
Variable self : VoiceAuthenticator.

Lemma pass_count_cons outcome outcomes :
  pass_count (outcome :: outcomes) =
  (if outcome : bool then 1 else 0) + pass_count outcomes.
Proof.
  unfold pass_count. destruct outcome; cbn [List.filter]; [|reflexivity].
  change (length (true :: ?l)) with (S (length l)). lia.
Qed.

Lemma pass_count_bounds outcomes :
  0 <= pass_count outcomes <= Z.of_nat (length outcomes).
Proof.
  induction outcomes as [|outcome outcomes IH]; [unfold pass_count; cbn; lia|].
  rewrite pass_count_cons. cbn [length]. destruct outcome; lia.
Qed.

(** The loop counts the passed checkpoints. *)
Lemma verification_checks_eq student_id st outcomes st' :
  checkpoints self student_id st outcomes st' ->
  forall passed_checks,
    verification_checks self student_id (length outcomes) passed_checks st =
    (Return (passed_checks + pass_count outcomes), st').
Proof.
  induction 1 as [st|st outcome st1 outcomes st2 Hverify Hrest IH]; intros passed_checks.
  - cbn. unfold mret, M_ret. f_equal. f_equal. unfold pass_count. cbn. lia.
  - cbn [length verification_checks]. unfold mbind, M_bind. rewrite Hverify.
    rewrite IH, pass_count_cons. f_equal. f_equal. destruct outcome; lia.
Qed.

(** Below [3 * 2 ^ 48] checkpoints the floating-point test is the exact one. *)
Lemma overall_passed_exact passed_checks num_checks :
  1 <= num_checks < 3 * 2 ^ 48 ->
  overall_passed passed_checks num_checks = Return (7 * num_checks <=? 10 * passed_checks).
Proof.
  intros HN. unfold overall_passed, int_mul_float.
  rewrite <- (mul_0_7_int_ge num_checks passed_checks HN).
  destruct (of_int_spec num_checks) as (mz & d & -> & _);
    [change (2 ^ 48) with 281474976710656 in HN;
     change (2 ^ 52) with 4503599627370496; lia|].
  reflexivity.
Qed.

Lemma ratio_reached_iff passCount N :
  0 < N -> ratio_reached passCount N <-> 7 * N <= 10 * passCount.
Proof.
  intros HN. destruct N as [|n|n]; try lia.
  unfold ratio_reached, Qle, Qdiv, Qmult, Qinv, inject_Z. cbn. lia.
Qed.

(** Without checkpoints the session is reported as passed. *)
Lemma continuous_verification_without_checks student_id st :
  continuous_verification self student_id (Some 0) st = (Return true, st).
Proof. reflexivity. Qed.

(** C1, as the code has it.  A session of [N] checkpoints, with
    [1 <= N < 3 * 2 ^ 48], ends [Passed] exactly when
    [passCount / N >= 0.7]; in particular [Pass, Pass, Fail] and
    [Pass, Fail, Fail] are flagged and [Pass, Pass, Pass] passes. *)
Theorem continuous_verification_ratio student_id st outcomes st' :
  let N := Z.of_nat (length outcomes) in
  checkpoints self student_id st outcomes st' ->
  1 <= N < 3 * 2 ^ 48 ->
  exists decision,
    continuous_verification self student_id (Some N) st = (Return decision, st') /\
    (decision = true <-> ratio_reached (pass_count outcomes) N) /\
    (outcomes = [true; true; false] -> decision = false) /\
    (outcomes = [true; true; true] -> decision = true) /\
    (outcomes = [true; false; false] -> decision = false).
Proof.
  intros N Hrun HN.
  exists (7 * N <=? 10 * pass_count outcomes).
  split; [|split; [|repeat split]].
  - unfold continuous_verification, mbind, M_bind.
    change (default 3 (Some N)) with N.
    unfold N at 1. rewrite Nat2Z.id.
    rewrite (verification_checks_eq _ _ _ _ Hrun). unfold lift.
    rewrite overall_passed_exact by exact HN. rewrite Z.add_0_l.
    destruct (7 * N <=? 10 * pass_count outcomes); reflexivity.
  - rewrite ratio_reached_iff by lia. apply Z.leb_le.
  - intros E. subst N. rewrite E. reflexivity.
  - intros E. subst N. rewrite E. reflexivity.
  - intros E. subst N. rewrite E. reflexivity.
Qed.

End Session.

(** * The theorems at work on concrete runs *)

Section Runs_of_Sim.
Import Sim.

Lemma verify_student_decision_witness :
  fs (enrolled [genuine]) !! model_path auth "s1"
    = Some (PickleFile (profile_of (enrolled [genuine]) "s1")) /\
  (fst (verify_student (H1 := W_genuine) auth "s1" None (enrolled [genuine])) = Return true <->
   exists features normalized_features score,
     features_at (H1 := W_genuine) auth (tick (enrolled [genuine])) = Some features /\
     scaler_transform (md_scaler (profile_of (enrolled [genuine]) "s1")) features
       = Return normalized_features /\
     gmm_score (md_gmm (profile_of (enrolled [genuine]) "s1")) normalized_features
       = Return score /\
     Float64.gt score (default (Float64.of_int (-50)) None) = true).
Proof.
  split; [vm_compute; reflexivity|].
  apply (verify_student_decision (H1 := W_genuine) auth "s1" None (enrolled [genuine])
           (profile_of (enrolled [genuine]) "s1")).
  vm_compute; reflexivity.
Defined.

Lemma verify_student_threshold_monotone_witness :
  Float64.le (Float64.of_int (-60)) (Float64.of_int (-50)) = true /\
  fst (verify_student (H1 := W_genuine) auth "s1" (Some (Float64.of_int (-50)))
         (enrolled [genuine])) = Return true /\
  fst (verify_student (H1 := W_genuine) auth "s1" (Some (Float64.of_int (-60)))
         (enrolled [genuine])) = Return true.
Proof.
  split; [vm_compute; reflexivity|]. split; [vm_compute; reflexivity|].
  apply (verify_student_threshold_monotone (H1 := W_genuine) auth "s1"
           (Float64.of_int (-60)) (Float64.of_int (-50)) (enrolled [genuine]));
    vm_compute; reflexivity.
Defined.

Lemma verify_student_preserves_profile_witness :
  fs (enrolled [impostor]) !! model_path auth "s1"
    = Some (PickleFile (profile_of (enrolled [impostor]) "s1")) /\
  fs (snd (verify_student (H1 := W_impostor) auth "s1" None (enrolled [impostor])))
    !! model_path auth "s1"
    = Some (PickleFile (profile_of (enrolled [impostor]) "s1")).
Proof.
  split; [vm_compute; reflexivity|].
  apply (verify_student_preserves_profile (H1 := W_impostor) auth "s1" None
           (enrolled [impostor])).
  vm_compute; reflexivity.
Defined.

Lemma verify_student_failures_alike_witness :
  fst (verify_student (H1 := W_genuine) auth "s1" None empty_state) = Return false /\
  fst (verify_student (H1 := W_silence) auth "s1" None (enrolled [silence]))
    = Return false /\
  fst (verify_student (H1 := W_impostor) auth "s1" None (enrolled [impostor]))
    = Return false.
Proof.
  split; [|split].
  - apply (verify_student_failures_alike (H1 := W_genuine) auth "s1" None empty_state).
    apply no_profile. vm_compute; reflexivity.
  - apply (verify_student_failures_alike (H1 := W_silence) auth "s1" None
             (enrolled [silence])).
    apply (extraction_failure _ _ _ _ (profile_of (enrolled [silence]) "s1"));
      vm_compute; reflexivity.
  - apply (verify_student_failures_alike (H1 := W_impostor) auth "s1" None
             (enrolled [impostor])).
    apply (verification_failure _ _ _ _ (profile_of (enrolled [impostor]) "s1")
             (np_T (repeat impostor 39)) (np_T (repeat impostor 39)) (Float64.of_int (-60)));
      vm_compute; reflexivity.
Defined.

Lemma continuous_verification_ratio_witness :
  checkpoints (H1 := W_mixed) auth "s1" (enrolled [genuine; impostor; genuine])
    [true; false; true]
    (checked W_mixed (checked W_mixed (checked W_mixed
       (enrolled [genuine; impostor; genuine])))) /\
  exists decision,
    continuous_verification (H1 := W_mixed) auth "s1" (Some 3)
      (enrolled [genuine; impostor; genuine])
    = (Return decision,
       checked W_mixed (checked W_mixed (checked W_mixed
         (enrolled [genuine; impostor; genuine])))) /\
    (decision = true <-> ratio_reached (pass_count [true; false; true]) 3).
Proof.
  assert (Hrun : checkpoints (H1 := W_mixed) auth "s1"
            (enrolled [genuine; impostor; genuine]) [true; false; true]
            (checked W_mixed (checked W_mixed (checked W_mixed
               (enrolled [genuine; impostor; genuine]))))).
  { apply checkpoints_cons
      with (st1 := checked W_mixed (enrolled [genuine; impostor; genuine]));
      [vm_compute; reflexivity|].
    apply checkpoints_cons
      with (st1 := checked W_mixed (checked W_mixed (enrolled [genuine; impostor; genuine])));
      [vm_compute; reflexivity|].
    apply checkpoints_cons
      with (st1 := checked W_mixed (checked W_mixed (checked W_mixed
                     (enrolled [genuine; impostor; genuine]))));
      [vm_compute; reflexivity|].
    apply checkpoints_nil. }
  split; [exact Hrun|].
  destruct (continuous_verification_ratio (H1 := W_mixed) auth "s1" _ _ _ Hrun)
    as (decision & Hres & Hiff & _); [cbn; lia|].
  exists decision. split; assumption.
Defined.

(** C1 as the specification states it, for every [N], fails at both
    ends.  A session without checkpoints is reported as passed, although
    no ratio reaches 0.7; and five checks past the bound of the theorem
    the rounding of [num_checks * 0.7] shows: the test succeeds with
    [10 * passed < 7 * checks]. *)
Lemma session_ratio_fails :
  (continuous_verification (H1 := W_genuine) auth "s1" (Some 0) (enrolled [genuine])
     = (Return true, enrolled [genuine]) /\
   ~ ratio_reached (pass_count []) 0) /\
  (overall_passed 591097451092381 (3 * 2 ^ 48 + 5) = Return true /\
   ~ ratio_reached 591097451092381 (3 * 2 ^ 48 + 5)).
Proof.
  split; split.
  - vm_compute. reflexivity.
  - unfold ratio_reached, Qle. cbn. lia.
  - vm_compute. reflexivity.
  - rewrite ratio_reached_iff by (vm_compute; reflexivity).
    change (2 ^ 48) with 281474976710656. lia.
Qed.

End Runs_of_Sim.

(** * Enrollment at work on recordings of full length *)

Section Runs_of_Lab.
Import Lab.

Lemma register_student_training_unguarded_witness :
  plain_id "s1" = true /\
  fst (register_student (H1 := W_voices) auth_1k "s1" (Some 1) Sim.empty_state)
    = Raise ValueError /\
  fst (register_student (H1 := W_all_broken) auth_1k "s1" None Sim.empty_state)
    = Return false /\
  fst (register_student (H1 := W_voices) auth_1k "s1" None Sim.empty_state) = Return true.
Proof.
  split; [reflexivity|]. split; [|split].
  - rewrite (register_student_training_unguarded (H1 := W_voices) auth_1k "s1" (Some 1)
               Sim.empty_state eq_refl).
    vm_compute. reflexivity.
  - rewrite (register_student_training_unguarded (H1 := W_all_broken) auth_1k "s1" None
               Sim.empty_state eq_refl).
    vm_compute. reflexivity.
  - rewrite (register_student_training_unguarded (H1 := W_voices) auth_1k "s1" None
               Sim.empty_state eq_refl).
    vm_compute. reflexivity.
Defined.

Lemma register_student_failure_keeps_profiles_witness :
  plain_id "s1" = true /\
  (fst (register_student (H1 := W_then_broken) auth "s1" None (enrolled W_then_broken))
     = Return false /\
   fs (snd (register_student (H1 := W_then_broken) auth "s1" None (enrolled W_then_broken)))
     !! model_path auth "s1" = fs (enrolled W_then_broken) !! model_path auth "s1") /\
  (fst (register_student (H1 := W_then_short) auth_1k "s1" (Some 1) (enrolled W_then_short))
     = Raise ValueError /\
   fs (snd (register_student (H1 := W_then_short) auth_1k "s1" (Some 1)
              (enrolled W_then_short)))
     !! model_path auth_1k "s1" = fs (enrolled W_then_short) !! model_path auth_1k "s1") /\
  (fst (register_student (H1 := W_first_broken) auth "s1" None Sim.empty_state)
     = Return true /\
   length (enrollment_features (H1 := W_first_broken) auth Sim.empty_state 3) = 2%nat).
Proof.
  split; [reflexivity|]. split; [|split].
  - destruct (register_student_failure_keeps_profiles (H1 := W_then_broken) auth "s1" None
                (enrolled W_then_broken) eq_refl) as (_ & Hnone & _).
    destruct Hnone as [Hresult Hkept]; [vm_compute; reflexivity|].
    split; [exact Hresult | apply Hkept].
  - destruct (register_student_failure_keeps_profiles (H1 := W_then_short) auth_1k "s1"
                (Some 1) (enrolled W_then_short) eq_refl) as (_ & _ & Hraise & _).
    destruct (Hraise ValueError) as [Hresult Hkept];
      [vm_compute; discriminate | vm_compute; reflexivity|].
    split; [exact Hresult | apply Hkept].
  - destruct (register_student_failure_keeps_profiles (H1 := W_first_broken) auth "s1" None
                Sim.empty_state eq_refl) as (_ & _ & _ & Hdone).
    split.
    + eapply Hdone; [vm_compute; discriminate | vm_compute; reflexivity].
    + vm_compute. reflexivity.
Defined.

(** C3 as the specification states it fails for an authenticator whose
    recordings have 5000 samples.  One recording gives a pooled matrix
    of 10 rows, all of finite values and fewer than the 16 components,
    and the attempt ends with the library's exception, not with [False]. *)
Lemma short_enrollment_raises :
  (exists X,
     np_vstack (enrollment_features (H1 := W_voices) auth_1k Sim.empty_state 1) = Return X /\
     length X = 10%nat /\ forallb (forallb is_finite) X = true) /\
  fst (register_student (H1 := W_voices) auth_1k "s1" (Some 1) Sim.empty_state)
    = Raise ValueError.
Proof.
  split; [eexists; split; [|split]|]; vm_compute; reflexivity.
Qed.

(** C4 as the specification states it fails when the first of three
    recordings yields no features: the attempt goes on with the other
    two, returns [True] and writes the profile. *)
Lemma partial_extraction_failure_enrolls :
  features_at (H1 := W_first_broken) auth 0 = None /\
  fs Sim.empty_state !! model_path auth "s1" = None /\
  fst (register_student (H1 := W_first_broken) auth "s1" None Sim.empty_state) = Return true /\
  is_Some (fs (snd (register_student (H1 := W_first_broken) auth "s1" None Sim.empty_state))
             !! model_path auth "s1").
Proof.
  split; [vm_compute; reflexivity|]. split; [vm_compute; reflexivity|].
  split; [vm_compute; reflexivity|]. eexists. vm_compute. reflexivity.
Qed.

End Runs_of_Lab.

(** * Paths of profiles *)

Section ModelPaths.

Lemma string_length_app a b :
  String.length (a +:+ b) = (String.length a + String.length b)%nat.
Proof.
  induction a as [|c a IH]; [reflexivity|].
  change (String c a +:+ b) with (String c (a +:+ b)). cbn [String.length].
  rewrite IH. reflexivity.
Qed.

Lemma string_app_inv_tail a : forall b s, a +:+ s = b +:+ s -> a = b.
Proof.
  induction a as [|c a IH]; intros [|d b] s E.
  - reflexivity.
  - apply (f_equal String.length) in E.
    change (String d b +:+ s) with (String d (b +:+ s)) in E.
    change ("" +:+ s) with s in E. cbn [String.length] in E.
    rewrite string_length_app in E. lia.
  - apply (f_equal String.length) in E.
    change (String c a +:+ s) with (String c (a +:+ s)) in E.
    change ("" +:+ s) with s in E. cbn [String.length] in E.
    rewrite string_length_app in E. lia.
  - change (String c a +:+ s) with (String c (a +:+ s)) in E.
    change (String d b +:+ s) with (String d (b +:+ s)) in E.
    injection E as -> E. f_equal. eapply IH, E.
Qed.


(** The file name of a profile starts with a separator exactly when the
    identity does. *)
Lemma starts_with_sep_file_name student_id :
  starts_with_sep (student_id +:+ "_voice_model.pkl") = starts_with_sep student_id.
Proof. destruct student_id as [|c s]; reflexivity. Qed.

Lemma plain_id_starts_with_sep student_id :
  plain_id student_id = true -> starts_with_sep student_id = false.
Proof.
  destruct student_id as [|c s]; [reflexivity|].
  unfold plain_id. rewrite andb_true_iff. intros [_ Hchars].
  cbn [list_ascii_of_string forallb] in Hchars.
  apply andb_true_iff in Hchars as [Hc _].
  apply negb_true_iff, orb_false_iff in Hc as [Hc _].
  apply Ascii.eqb_neq in Hc.
  destruct (starts_with_sep (String c s)) eqn:E; [|reflexivity].
  exfalso. apply Hc. clear Hc.
  destruct c as [[] [] [] [] [] [] [] []]; cbn in E; try discriminate E. reflexivity.
Qed.

(** [os.path.join] puts the file names of two identities that do not
    start with a separator behind the same prefix. *)
Lemma model_path_inj self student_id student_id' :
  starts_with_sep student_id = false ->
  starts_with_sep student_id' = false ->
  model_path self student_id = model_path self student_id' ->
  student_id = student_id'.
Proof.
  intros E1 E2. unfold model_path, os_path_join.
  rewrite !starts_with_sep_file_name, E1, E2.
  destruct (String.eqb (models_dir self) "" || ends_with_sep (models_dir self))%bool;
    intros E.
  - apply String.app_inj in E. eapply string_app_inv_tail, E.
  - apply String.app_inj in E. apply (String.app_inj "/") in E.
    eapply string_app_inv_tail, E.
Qed.


End ModelPaths.

(** * More on enrollment *)

Section EnrollmentStore.
Context `{Librosa, Sklearn, World}.
Variable self : VoiceAuthenticator.

Lemma temps_removed_None student_id n : forall i files path,
  files !! path = None ->
  temps_removed student_id n i files !! path = None.
Proof.
  induction n as [|n IH]; intros i files path Hnone; cbn; [assumption|].
  apply IH. apply lookup_delete_None. right. assumption.
Qed.

Lemma temps_removed_temp student_id n : forall i files j,
  (i <= j < i + n)%nat ->
  temps_removed student_id n i files !! temp_registration student_id j = None.
Proof.
  induction n as [|n IH]; intros i files j Hj; [lia|]. cbn.
  destruct (Nat.eq_dec j i) as [->|Hne].
  - apply temps_removed_None, lookup_delete_eq.
  - apply IH. lia.
Qed.

(** X2. An enrollment that completes leaves, at the path of the
    identity, a profile made of exactly the scaler and the mixture
    trained on the features of this attempt, the identity and the date;
    whatever profile was there before is replaced. *)
Theorem register_student_stores_profile student_id num_samples st st' :
  let n := Z.to_nat (default 3 num_samples) in
  register_student self student_id num_samples st = (Return true, st') ->
  exists scaler gmm,
    train (np_random (tick st + n)%nat) (enrollment_features self st n)
      = Return (scaler, gmm) /\
    fs st' !! model_path self student_id =
      Some (PickleFile {| md_gmm := gmm; md_scaler := scaler;
                          md_student_id := student_id;
                          md_registration_date := datetime_now (tick st + n)%nat |}) /\
    tick st' = (tick st + n)%nat.
Proof.
  intros n. rewrite register_student_eq. cbv zeta. fold n. cbn [tick].
  destruct (enrollment_features self st n) as [|features rest]; [discriminate|].
  destruct (train _ _) as [[scaler gmm]|e]; [|discriminate].
  intros [= <-]. exists scaler, gmm. cbn.
  rewrite lookup_insert_eq. repeat split.
Qed.

(** X3. Verification after a completed enrollment scores the new
    recording with the scaler and the mixture that this enrollment
    trained: its result is decided by them and by nothing else in the
    store. *)
Theorem verify_after_register student_id num_samples threshold st st' :
  let n := Z.to_nat (default 3 num_samples) in
  register_student self student_id num_samples st = (Return true, st') ->
  exists scaler gmm,
    train (np_random (tick st + n)%nat) (enrollment_features self st n)
      = Return (scaler, gmm) /\
    fst (verify_student self student_id threshold st') =
      match features_at self (tick st + n)%nat with
      | None => Return false
      | Some features =>
          match scaler_transform scaler features with
          | Raise e => Raise e
          | Return normalized_features =>
              match gmm_score gmm normalized_features with
              | Raise e => Raise e
              | Return score =>
                  Return (Float64.gt score (default Float64.lit_neg_50 threshold))
              end
          end
      end.
Proof.
  intros n. rewrite register_student_eq. cbv zeta. fold n. cbn [tick].
  destruct (enrollment_features self st n) as [|features rest]; [discriminate|].
  destruct (train _ _) as [[scaler gmm]|e]; [|discriminate].
  intros [= <-]. exists scaler, gmm. split; [reflexivity|].
  rewrite verify_student_eq. cbn [fs tick]. rewrite lookup_insert_eq. cbv zeta.
  cbn [md_scaler md_gmm].
  destruct (features_at self (tick st + n)) as [f|]; [|reflexivity].
  destruct (scaler_transform scaler f) as [nf|e]; [|reflexivity].
  destruct (gmm_score gmm nf) as [score|e]; reflexivity.
Qed.

(** X4. Enrolling an identity that is a plain file name, with whatever
    outcome, leaves the profile of every other such identity as it was. *)
Theorem register_student_other_profiles student_id student_id' num_samples st :
  plain_id student_id = true ->
  plain_id student_id' = true ->
  student_id' <> student_id ->
  fs (snd (register_student self student_id num_samples st)) !! model_path self student_id'
  = fs st !! model_path self student_id'.
Proof.
  intros Hp Hp' Hne.
  assert (Hpath : model_path self student_id <> model_path self student_id').
  { intros E. apply Hne. symmetry. revert E.
    apply model_path_inj; apply plain_id_starts_with_sep; assumption. }
  rewrite register_student_eq. cbv zeta.
  destruct (enrollment_features self st _) as [|features rest]; cbn;
    [apply temps_removed_model_path|].
  destruct (train _ _) as [[scaler gmm]|e]; cbn; [|apply temps_removed_model_path].
  rewrite lookup_insert_ne by exact Hpath. apply temps_removed_model_path.
Qed.

(** X5. However an enrollment attempt ends, none of its temporary
    recordings is left in the file system. *)
Theorem register_student_removes_temps student_id num_samples st i :
  (i < Z.to_nat (default 3%Z num_samples))%nat ->
  fs (snd (register_student self student_id num_samples st))
    !! temp_registration student_id i = None.
Proof.
  intros Hi. rewrite register_student_eq. cbv zeta.
  destruct (enrollment_features self st _) as [|features rest]; cbn;
    [apply temps_removed_temp; lia|].
  destruct (train _ _) as [[scaler gmm]|e]; cbn; [|apply temps_removed_temp; lia].
  rewrite lookup_insert_ne
    by (intros E; symmetry in E; revert E; apply model_path_not_temp_registration).
  apply temps_removed_temp. lia.
Qed.

(** X6. With [num_samples <= 0] nothing is recorded: the attempt returns
    [False] and the state is as before. *)
Theorem register_student_no_samples student_id num_samples st :
  num_samples <= 0 ->
  register_student self student_id (Some num_samples) st = (Return false, st).
Proof.
  intros Hn. rewrite register_student_eq. cbv zeta.
  change (default 3 (Some num_samples)) with num_samples.
  replace (Z.to_nat num_samples) with 0%nat by lia.
  cbn. rewrite Nat.add_0_r. destruct st; reflexivity.
Qed.

(** X20. An enrollment attempt of an identity that is a plain file name
    always makes all [num_samples] recordings: a sample without features
    does not end the loop, and the attempt ends, with whatever outcome,
    [num_samples] recordings later. *)
Theorem register_student_records_all student_id num_samples st :
  plain_id student_id = true ->
  tick (snd (register_student self student_id num_samples st))
  = (tick st + Z.to_nat (default 3%Z num_samples))%nat.
Proof.
  intros _. rewrite register_student_eq. cbv zeta.
  destruct (enrollment_features self st _) as [|features rest]; [reflexivity|].
  destruct (train _ _) as [[scaler gmm]|e]; reflexivity.
Qed.

End EnrollmentStore.

(** * More on recording, extraction and verification *)

Section VerificationEdges.
Context `{Librosa, Sklearn, World}.
Variable self : VoiceAuthenticator.

(** X7. What is extracted right after recording to a path is the
    features of the recording just made, whatever file was at that path
    before; the recording stays at the path. *)
Theorem extract_after_record path st :
  (record_audio self path None ≫= fun _ => extract_features self path) st =
  (Return (features_at self (tick st)),
   {| fs := <[path := recorded self (tick st)]> (fs st); tick := S (tick st) |}).
Proof.
  unfold mbind, M_bind, record_audio, extract_features, features_at, recorded.
  cbn. rewrite lookup_insert_eq.
  destruct (extract_features_body self _) as [features|e]; reflexivity.
Qed.


(** X9. The result of a verification depends on the store only through
    the profile of the identity: two stores that agree on it give, for
    the same recording, the same result. *)
Theorem verify_student_reads_own_profile student_id threshold st1 st2 :
  fs st1 !! model_path self student_id = fs st2 !! model_path self student_id ->
  tick st1 = tick st2 ->
  fst (verify_student self student_id threshold st1) =
  fst (verify_student self student_id threshold st2).
Proof.
  intros Hprofile Htick. rewrite !verify_student_eq, Hprofile, Htick. cbv zeta.
  destruct (fs st2 !! model_path self student_id) as [[rate data|profile]|];
    try reflexivity.
  destruct (features_at self (tick st2)) as [features|]; [|reflexivity].
  destruct (scaler_transform _ features) as [nf|e]; [|reflexivity].
  destruct (gmm_score _ nf) as [score|e]; reflexivity.
Qed.

(** X10. A verification that loads a profile makes exactly one
    recording and leaves no temporary recording behind, whatever its
    result. *)
Theorem verify_student_removes_temp student_id threshold st profile :
  fs st !! model_path self student_id = Some (PickleFile profile) ->
  fs (snd (verify_student self student_id threshold st))
    !! temp_verification student_id = None /\
  tick (snd (verify_student self student_id threshold st)) = S (tick st).
Proof.
  intros Hprofile. rewrite verify_student_eq, Hprofile. cbv zeta.
  destruct (features_at self (tick st)) as [features|]; cbn;
    [|split; [apply lookup_delete_eq | reflexivity]].
  destruct (scaler_transform _ features) as [nf|e]; cbn;
    [|split; [apply lookup_delete_eq | reflexivity]].
  destruct (gmm_score _ nf) as [score|e]; cbn;
    (split; [apply lookup_delete_eq | reflexivity]).
Qed.

(** X11. A score that is not a number never verifies, whatever the
    threshold. *)
Theorem verify_student_nan_score student_id threshold st profile features
    normalized_features :
  fs st !! model_path self student_id = Some (PickleFile profile) ->
  features_at self (tick st) = Some features ->
  scaler_transform (md_scaler profile) features = Return normalized_features ->
  gmm_score (md_gmm profile) normalized_features = Return S754_nan ->
  fst (verify_student self student_id threshold st) = Return false.
Proof.
  intros Hprofile Hfeatures Ht Hs.
  rewrite verify_student_eq, Hprofile, Hfeatures, Ht, Hs. cbn. f_equal.
  unfold Float64.gt, SFltb. destruct (default Float64.lit_neg_50 threshold); reflexivity.
Qed.

End VerificationEdges.

(** * More on the verification session *)

Section SessionEdges.
Context `{Librosa, Sklearn, World}.
Variable self : VoiceAuthenticator.

Lemma verification_checks_frame student_id path n : forall passed_checks st,
  path <> temp_verification student_id ->
  fs (snd (verification_checks self student_id n passed_checks st)) !! path
  = fs st !! path.
Proof.
  induction n as [|n IH]; intros passed_checks st Hpath; [reflexivity|].
  cbn [verification_checks]. unfold mbind, M_bind.
  pose proof (verify_student_frame self student_id None st path Hpath) as Hframe.
  destruct (verify_student self student_id None st) as [[outcome|e] st1];
    cbn [snd] in *; [|exact Hframe].
  rewrite IH by exact Hpath. exact Hframe.
Qed.

Lemma continuous_verification_frame student_id num_checks st path :
  path <> temp_verification student_id ->
  fs (snd (continuous_verification self student_id num_checks st)) !! path
  = fs st !! path.
Proof.
  intros Hpath. unfold continuous_verification, mbind, M_bind.
  pose proof (verification_checks_frame student_id path
                (Z.to_nat (default 3 num_checks)) 0 st Hpath) as Hframe.
  destruct (verification_checks self student_id _ 0 st) as [[passed|e] st1];
    cbn [snd] in *; [|exact Hframe].
  unfold lift. destruct (overall_passed passed _) as [[]|e]; exact Hframe.
Qed.

(** X12. A monitored session, however it ends (passed, flagged or with
    an exception), leaves the stored profile of every identity as it
    was. *)
Theorem continuous_verification_preserves_profiles student_id student_id'
    num_checks st :
  fs (snd (continuous_verification self student_id num_checks st))
    !! model_path self student_id'
  = fs st !! model_path self student_id'.
Proof.
  apply continuous_verification_frame.
  intros E. symmetry in E. revert E. apply model_path_not_temp_verification.
Qed.

Lemma verification_checks_unenrolled student_id st n : forall passed_checks,
  fs st !! model_path self student_id = None ->
  verification_checks self student_id n passed_checks st = (Return passed_checks, st).
Proof.
  induction n as [|n IH]; intros passed_checks Hnone; [reflexivity|].
  cbn [verification_checks]. unfold mbind, M_bind.
  rewrite verify_student_eq, Hnone. apply IH, Hnone.
Qed.

(** X13. A session for an identity without a profile records nothing and
    is flagged, for every number of checkpoints from 1 up to the bound
    of the float test. *)
Theorem continuous_verification_unenrolled student_id num_checks st :
  fs st !! model_path self student_id = None ->
  1 <= num_checks < 3 * 2 ^ 48 ->
  continuous_verification self student_id (Some num_checks) st = (Return false, st).
Proof.
  intros Hnone HN. unfold continuous_verification, mbind, M_bind.
  change (default 3 (Some num_checks)) with num_checks.
  rewrite verification_checks_unenrolled by exact Hnone. unfold lift.
  rewrite overall_passed_exact by exact HN.
  replace (7 * num_checks <=? 10 * 0) with false
    by (symmetry; apply Z.leb_gt; lia).
  reflexivity.
Qed.

(** X14. A single failed checkpoint is tolerated exactly when the
    session has four checkpoints or more: with one, two or three
    checkpoints one failure flags the session. *)
Theorem single_failure_tolerated student_id st outcomes st' :
  let N := Z.of_nat (length outcomes) in
  checkpoints self student_id st outcomes st' ->
  1 <= N < 3 * 2 ^ 48 ->
  pass_count outcomes = N - 1 ->
  continuous_verification self student_id (Some N) st = (Return (4 <=? N), st').
Proof.
  intros N Hrun HN Hone.
  unfold continuous_verification, mbind, M_bind.
  change (default 3 (Some N)) with N.
  unfold N at 1. rewrite Nat2Z.id.
  rewrite (verification_checks_eq _ _ _ _ _ Hrun). unfold lift.
  rewrite overall_passed_exact by exact HN. rewrite Z.add_0_l, Hone.
  replace (7 * N <=? 10 * (N - 1)) with (4 <=? N)
    by (apply eq_true_iff_eq; rewrite !Z.leb_le; lia).
  destruct (4 <=? N); reflexivity.
Qed.

(** X21. When the file at the path of the profile is a recording, the
    first checkpoint raises the exception of unpickling and the session
    ends with it, before any recording is made. *)
Theorem continuous_verification_corrupt_profile student_id num_checks st rate data :
  fs st !! model_path self student_id = Some (WavFile rate data) ->
  1 <= num_checks ->
  continuous_verification self student_id (Some num_checks) st
  = (Raise UnpicklingError, st).
Proof.
  intros Hfile HN. unfold continuous_verification, mbind, M_bind.
  change (default 3 (Some num_checks)) with num_checks.
  destruct (Z.to_nat num_checks) as [|n] eqn:En; [lia|].
  cbn [verification_checks]. unfold mbind, M_bind.
  rewrite verify_student_eq, Hfile. reflexivity.
Qed.

Lemma int_ge_monotone n n' x :
  n <= n' -> Float64.int_ge n x = true -> Float64.int_ge n' x = true.
Proof.
  intros Hle. destruct x as [s|s| |s m e]; cbn [Float64.int_ge]; try (intros; assumption).
  - rewrite !Z.leb_le. lia.
  - destruct (0 <=? e); rewrite !Z.leb_le; intros Hn; [lia|].
    assert (0 <= 2 ^ (- e)) by (apply Z.pow_nonneg; lia). nia.
Qed.

(** X15. More passed checkpoints never turn a passed session into a
    flagged one: the final test is monotone in [passed_checks], for
    every number of checkpoints. *)
Theorem overall_passed_monotone passed_checks passed_checks' num_checks :
  passed_checks <= passed_checks' ->
  overall_passed passed_checks num_checks = Return true ->
  overall_passed passed_checks' num_checks = Return true.
Proof.
  intros Hle. unfold overall_passed.
  destruct (int_mul_float num_checks Float64.lit_0_7) as [bound|e]; [|discriminate].
  intros [= Hge]. f_equal. eapply int_ge_monotone; eassumption.
Qed.

End SessionEdges.

(** * The exam system *)

Section Exam.
Context `{Librosa, Sklearn, World}.
Variable self : ExamSystem.

Lemma start_exam_eq student_id st :
  start_exam self student_id st = verify_student (voice_auth self) student_id None st.
Proof.
  unfold start_exam, mbind, M_bind.
  destruct (verify_student (voice_auth self) student_id None st) as [[[]|e] st1];
    reflexivity.
Qed.

(** X16. [register_for_exam] returns what [register_student] returns and
    adds the identity to [registered_students] exactly when the
    enrollment completed; no other identity is added or removed. *)
Theorem register_for_exam_bookkeeping student_id st success self' st' :
  register_for_exam self student_id st = (Return (success, self'), st') ->
  register_student (voice_auth self) student_id None st = (Return success, st') /\
  voice_auth self' = voice_auth self /\
  forall s, s ∈ registered_students self' <->
            (success = true /\ s = student_id) \/ s ∈ registered_students self.
Proof.
  unfold register_for_exam, mbind, M_bind.
  destruct (register_student (voice_auth self) student_id None st) as [[[]|e] st1];
    [| |discriminate]; intros [= <- <- <-]; (split; [reflexivity|]);
    (split; [reflexivity|]); intros s; cbn [registered_students].
  - rewrite elem_of_union, elem_of_singleton. tauto.
  - split; [tauto|]. intros [[[=] _]|Hs]. exact Hs.
Qed.

(** X17. [register_for_exam] keeps the invariant that every registered
    student has a profile in the store, whether the enrollment
    completes, fails or raises. *)
Theorem register_for_exam_keeps_profiles student_id st :
  registered_have_profiles self st ->
  registered_have_profiles
    (exam_after self (register_for_exam self student_id st))
    (snd (register_for_exam self student_id st)).
Proof.
  intros Hinv. unfold register_for_exam, mbind, M_bind, exam_after.
  rewrite register_student_eq. cbv zeta. unfold registered_have_profiles in *.
  destruct (enrollment_features (voice_auth self) st _) as [|features rest].
  - cbn. intros s Hs. rewrite temps_removed_model_path. apply Hinv, Hs.
  - destruct (train _ _) as [[scaler gmm]|e]; cbn.
    + intros s Hs. cbn [registered_students voice_auth] in *.
      destruct (decide (model_path (voice_auth self) student_id
                        = model_path (voice_auth self) s)) as [E|Hne].
      * rewrite <- E, lookup_insert_eq. eauto.
      * rewrite lookup_insert_ne, temps_removed_model_path by exact Hne.
        apply elem_of_union in Hs as [Hs|Hs]; [|apply Hinv, Hs].
        apply elem_of_singleton in Hs. subst s. congruence.
    + intros s Hs. rewrite temps_removed_model_path. apply Hinv, Hs.
Qed.

Lemma conduct_exam_frame student_id st path :
  path <> temp_verification student_id ->
  fs (snd (conduct_exam_with_monitoring self student_id st)) !! path = fs st !! path.
Proof.
  intros Hpath. unfold conduct_exam_with_monitoring, mbind, M_bind.
  rewrite start_exam_eq.
  pose proof (verify_student_frame (voice_auth self) student_id None st path Hpath)
    as Hstart.
  destruct (verify_student (voice_auth self) student_id None st) as [[[]|e] st1];
    cbn [snd negb] in *; try exact Hstart.
  pose proof (continuous_verification_frame (voice_auth self) student_id (Some 2)
                st1 path Hpath) as Hsession.
  destruct (continuous_verification (voice_auth self) student_id (Some 2) st1)
    as [[result|e] st2]; cbn in *; rewrite Hsession; exact Hstart.
Qed.

(** X18. An exam with monitoring, however it ends, removes or changes no
    profile: every registered student still has one afterwards. *)
Theorem conduct_exam_keeps_profiles student_id st :
  registered_have_profiles self st ->
  registered_have_profiles self (snd (conduct_exam_with_monitoring self student_id st)).
Proof.
  intros Hinv s Hs. rewrite conduct_exam_frame; [apply Hinv, Hs|].
  intros E. symmetry in E. revert E. apply model_path_not_temp_verification.
Qed.

(** X19. An exam with monitoring is all or nothing.  When the
    verification at the start fails, access is denied without any
    further check; when it passes, the exam is valid exactly when both
    monitoring checks pass: with two checkpoints no failure is
    tolerated. *)
Theorem conduct_exam_all_or_nothing student_id st outcome st1 :
  verify_student (voice_auth self) student_id None st = (Return outcome, st1) ->
  (outcome = false ->
   conduct_exam_with_monitoring self student_id st = (Return false, st1)) /\
  (outcome = true ->
   forall check1 check2 st3,
     checkpoints (voice_auth self) student_id st1 [check1; check2] st3 ->
     conduct_exam_with_monitoring self student_id st
     = (Return (check1 && check2), st3)).
Proof.
  intros Hstart. unfold conduct_exam_with_monitoring, mbind, M_bind.
  rewrite start_exam_eq, Hstart. split; intros ->; [reflexivity|].
  intros check1 check2 st3 Hrun. cbn [negb].
  unfold continuous_verification, mbind, M_bind.
  change (Z.to_nat (default 3 (Some 2))) with (length [check1; check2]).
  rewrite (verification_checks_eq _ _ _ _ _ Hrun). unfold lift.
  change (default 3 (Some 2)) with 2.
  rewrite overall_passed_exact by (change (2 ^ 48) with 281474976710656; lia).
  destruct check1, check2; reflexivity.
Qed.

End Exam.

(** * More runs of the small instance *)

Section More_runs_of_Sim.
Import Sim SimExam.


Lemma register_student_stores_profile_witness :
  register_student (H1 := W_genuine) auth "s1" None empty_state
    = (Return true, enrolled [genuine]) /\
  exists scaler gmm,
    train (@np_random W_genuine 3%nat)
      (enrollment_features (H1 := W_genuine) auth empty_state 3) = Return (scaler, gmm) /\
    fs (enrolled [genuine]) !! model_path auth "s1" =
      Some (PickleFile {| md_gmm := gmm; md_scaler := scaler; md_student_id := "s1";
                          md_registration_date := @datetime_now W_genuine 3%nat |}) /\
    tick (enrolled [genuine]) = 3%nat.
Proof.
  assert (Hrun : register_student (H1 := W_genuine) auth "s1" None empty_state
                 = (Return true, enrolled [genuine]))
    by (vm_compute; reflexivity).
  split; [exact Hrun|].
  exact (register_student_stores_profile (H1 := W_genuine) auth "s1" None
           empty_state (enrolled [genuine]) Hrun).
Defined.

Lemma verify_after_register_witness :
  register_student (H1 := W_genuine) auth "s1" None empty_state
    = (Return true, enrolled [genuine]) /\
  fst (verify_student (H1 := W_genuine) auth "s1" None (enrolled [genuine])) = Return true.
Proof.
  assert (Hrun : register_student (H1 := W_genuine) auth "s1" None empty_state
                 = (Return true, enrolled [genuine]))
    by (vm_compute; reflexivity).
  split; [exact Hrun|].
  destruct (verify_after_register (H1 := W_genuine) auth "s1" None None
              empty_state (enrolled [genuine]) Hrun) as (scaler & gmm & Htrain & Hverify).
  rewrite Hverify. vm_compute in Htrain. injection Htrain as <- <-.
  vm_compute. reflexivity.
Defined.

Lemma register_student_other_profiles_witness :
  plain_id "s2" = true /\ plain_id "s1" = true /\ "s1" <> "s2" /\
  fs (snd (register_student (H1 := W_twice) auth "s2" None
             (enrolled [genuine; genuine; genuine]))) !! model_path auth "s1"
  = fs (enrolled [genuine; genuine; genuine]) !! model_path auth "s1".
Proof.
  assert (Hne : "s1" <> "s2") by discriminate.
  split; [reflexivity|]. split; [reflexivity|]. split; [exact Hne|].
  exact (register_student_other_profiles (H1 := W_twice) auth "s2" "s1" None
           (enrolled [genuine; genuine; genuine]) eq_refl eq_refl Hne).
Defined.

Lemma register_student_records_all_witness :
  plain_id "s1" = true /\
  tick (snd (register_student (H1 := W_partial) auth "s1" None empty_state)) = 3%nat.
Proof.
  split; [reflexivity|].
  exact (register_student_records_all (H1 := W_partial) auth "s1" None empty_state eq_refl).
Defined.

Lemma register_student_removes_temps_witness :
  (2 < Z.to_nat (default 3%Z None))%nat /\
  fs (snd (register_student (H1 := W_partial) auth "s1" None empty_state))
    !! temp_registration "s1" 2 = None.
Proof.
  assert (Hi : (2 < Z.to_nat (default 3%Z None))%nat) by (vm_compute; lia).
  split; [exact Hi|].
  exact (register_student_removes_temps (H1 := W_partial) auth "s1" None empty_state 2 Hi).
Defined.

Lemma register_student_no_samples_witness :
  -1 <= 0 /\
  register_student (H1 := W_genuine) auth "s1" (Some (-1)) (enrolled [genuine])
  = (Return false, enrolled [genuine]).
Proof.
  split; [lia|].
  apply (register_student_no_samples (H1 := W_genuine) auth "s1" (-1) (enrolled [genuine])).
  lia.
Defined.


Lemma verify_student_reads_own_profile_witness :
  fs (enrolled [genuine]) !! model_path auth "s1"
    = fs (cluttered (enrolled [genuine])) !! model_path auth "s1" /\
  tick (enrolled [genuine]) = tick (cluttered (enrolled [genuine])) /\
  fst (verify_student (H1 := W_genuine) auth "s1" None (enrolled [genuine])) =
  fst (verify_student (H1 := W_genuine) auth "s1" None (cluttered (enrolled [genuine]))).
Proof.
  assert (Hprofile : fs (enrolled [genuine]) !! model_path auth "s1"
                     = fs (cluttered (enrolled [genuine])) !! model_path auth "s1")
    by (vm_compute; reflexivity).
  split; [exact Hprofile|]. split; [reflexivity|].
  exact (verify_student_reads_own_profile (H1 := W_genuine) auth "s1" None
           (enrolled [genuine]) (cluttered (enrolled [genuine])) Hprofile eq_refl).
Defined.

Lemma verify_student_removes_temp_witness :
  fs (enrolled [impostor]) !! model_path auth "s1"
    = Some (PickleFile (profile_of (enrolled [impostor]) "s1")) /\
  fs (snd (verify_student (H1 := W_impostor) auth "s1" None (enrolled [impostor])))
    !! temp_verification "s1" = None /\
  tick (snd (verify_student (H1 := W_impostor) auth "s1" None (enrolled [impostor])))
    = S (tick (enrolled [impostor])).
Proof.
  assert (Hprofile : fs (enrolled [impostor]) !! model_path auth "s1"
                     = Some (PickleFile (profile_of (enrolled [impostor]) "s1")))
    by (vm_compute; reflexivity).
  split; [exact Hprofile|].
  exact (verify_student_removes_temp (H1 := W_impostor) auth "s1" None
           (enrolled [impostor]) _ Hprofile).
Defined.

Lemma verify_student_nan_score_witness :
  gmm_score (md_gmm (profile_of (enrolled [hiss]) "s1")) (np_T (repeat hiss 39))
    = Return S754_nan /\
  fst (verify_student (H1 := W_hiss) auth "s1" (Some (S754_infinity true))
         (enrolled [hiss])) = Return false.
Proof.
  split; [vm_compute; reflexivity|].
  apply (verify_student_nan_score (H1 := W_hiss) auth "s1" (Some (S754_infinity true))
           (enrolled [hiss]) (profile_of (enrolled [hiss]) "s1")
           (np_T (repeat hiss 39)) (np_T (repeat hiss 39)));
    vm_compute; reflexivity.
Defined.

Lemma continuous_verification_unenrolled_witness :
  fs (enrolled [genuine]) !! model_path auth "s2" = None /\
  continuous_verification (H1 := W_genuine) auth "s2" (Some 3) (enrolled [genuine])
  = (Return false, enrolled [genuine]).
Proof.
  assert (Hnone : fs (enrolled [genuine]) !! model_path auth "s2" = None)
    by (vm_compute; reflexivity).
  split; [exact Hnone|].
  apply (continuous_verification_unenrolled (H1 := W_genuine) auth "s2" 3
           (enrolled [genuine]) Hnone).
  cbn. lia.
Defined.

Lemma single_failure_tolerated_witness :
  pass_count [true; false; true] = 3 - 1 /\
  continuous_verification (H1 := W_mixed) auth "s1" (Some 3)
    (enrolled [genuine; impostor; genuine])
  = (Return false,
     checked W_mixed (checked W_mixed (checked W_mixed
       (enrolled [genuine; impostor; genuine])))).
Proof.
  split; [reflexivity|].
  assert (Hrun : checkpoints (H1 := W_mixed) auth "s1"
            (enrolled [genuine; impostor; genuine]) [true; false; true]
            (checked W_mixed (checked W_mixed (checked W_mixed
               (enrolled [genuine; impostor; genuine]))))).
  { apply checkpoints_cons
      with (st1 := checked W_mixed (enrolled [genuine; impostor; genuine]));
      [vm_compute; reflexivity|].
    apply checkpoints_cons
      with (st1 := checked W_mixed (checked W_mixed (enrolled [genuine; impostor; genuine])));
      [vm_compute; reflexivity|].
    apply checkpoints_cons
      with (st1 := checked W_mixed (checked W_mixed (checked W_mixed
                     (enrolled [genuine; impostor; genuine]))));
      [vm_compute; reflexivity|].
    apply checkpoints_nil. }
  apply (single_failure_tolerated (H1 := W_mixed) auth "s1" _ _ _ Hrun);
    [cbn; lia | reflexivity].
Defined.

Lemma overall_passed_monotone_witness :
  2 <= 3 /\ overall_passed 2 2 = Return true /\ overall_passed 3 2 = Return true.
Proof.
  split; [lia|]. split; [vm_compute; reflexivity|].
  apply (overall_passed_monotone 2 3 2); [lia | vm_compute; reflexivity].
Defined.

Lemma register_for_exam_bookkeeping_witness :
  fst (register_for_exam (H1 := W_genuine) exam_init "s1" empty_state)
    = Return (true, exam_s1) /\
  register_student (H1 := W_genuine) auth "s1" None empty_state
    = (Return true, snd (register_for_exam (H1 := W_genuine) exam_init "s1" empty_state)) /\
  "s1" ∈ registered_students exam_s1.
Proof.
  assert (Hrun : register_for_exam (H1 := W_genuine) exam_init "s1" empty_state
                 = (Return (true, exam_s1),
                    snd (register_for_exam (H1 := W_genuine) exam_init "s1" empty_state))).
  { vm_compute. reflexivity. }
  destruct (register_for_exam_bookkeeping (H1 := W_genuine) exam_init "s1" empty_state
              true exam_s1 _ Hrun) as (Hreg & _ & Hset).
  split; [rewrite Hrun; reflexivity|]. split; [exact Hreg|].
  apply Hset. left. split; reflexivity.
Defined.

Lemma exam_s1_has_profiles : registered_have_profiles exam_s1 (enrolled [genuine]).
Proof.
  intros s Hs. cbn [exam_s1 registered_students] in Hs.
  apply elem_of_singleton in Hs. subst s.
  exists (profile_of (enrolled [genuine]) "s1"). vm_compute. reflexivity.
Qed.

Lemma register_for_exam_keeps_profiles_witness :
  registered_have_profiles exam_s1 (enrolled [genuine]) /\
  registered_have_profiles
    (exam_after exam_s1 (register_for_exam (H1 := W_genuine) exam_s1 "s2" (enrolled [genuine])))
    (snd (register_for_exam (H1 := W_genuine) exam_s1 "s2" (enrolled [genuine]))).
Proof.
  split; [exact exam_s1_has_profiles|].
  exact (register_for_exam_keeps_profiles (H1 := W_genuine) exam_s1 "s2"
           (enrolled [genuine]) exam_s1_has_profiles).
Defined.

Lemma conduct_exam_keeps_profiles_witness :
  registered_have_profiles exam_s1 (enrolled [genuine]) /\
  registered_have_profiles exam_s1
    (snd (conduct_exam_with_monitoring (H1 := W_genuine) exam_s1 "s1" (enrolled [genuine]))).
Proof.
  split; [exact exam_s1_has_profiles|].
  exact (conduct_exam_keeps_profiles (H1 := W_genuine) exam_s1 "s1"
           (enrolled [genuine]) exam_s1_has_profiles).
Defined.

Lemma conduct_exam_all_or_nothing_witness :
  (verify_student (H1 := W_denied) auth "s1" None (enrolled [impostor])
     = (Return false, checked W_denied (enrolled [impostor])) /\
   conduct_exam_with_monitoring (H1 := W_denied) exam_s1 "s1" (enrolled [impostor])
     = (Return false, checked W_denied (enrolled [impostor]))) /\
  (verify_student (H1 := W_exam) auth "s1" None (enrolled [genuine; genuine; impostor])
     = (Return true, checked W_exam (enrolled [genuine; genuine; impostor])) /\
   conduct_exam_with_monitoring (H1 := W_exam) exam_s1 "s1"
     (enrolled [genuine; genuine; impostor])
     = (Return (true && false),
        checked W_exam (checked W_exam (checked W_exam
          (enrolled [genuine; genuine; impostor]))))).
Proof.
  assert (Hdenied : verify_student (H1 := W_denied) auth "s1" None (enrolled [impostor])
                    = (Return false, checked W_denied (enrolled [impostor])))
    by (vm_compute; reflexivity).
  assert (Hstart : verify_student (H1 := W_exam) auth "s1" None
                     (enrolled [genuine; genuine; impostor])
                   = (Return true, checked W_exam (enrolled [genuine; genuine; impostor])))
    by (vm_compute; reflexivity).
  split; (split; [assumption|]).
  - apply (conduct_exam_all_or_nothing (H1 := W_denied) exam_s1 "s1" _ _ _ Hdenied).
    reflexivity.
  - apply (conduct_exam_all_or_nothing (H1 := W_exam) exam_s1 "s1" _ _ _ Hstart);
      [reflexivity|].
    apply checkpoints_cons
      with (st1 := checked W_exam (checked W_exam (enrolled [genuine; genuine; impostor])));
      [vm_compute; reflexivity|].
    apply checkpoints_cons
      with (st1 := checked W_exam (checked W_exam (checked W_exam
                     (enrolled [genuine; genuine; impostor]))));
      [vm_compute; reflexivity|].
    apply checkpoints_nil.
Defined.

Lemma continuous_verification_corrupt_profile_witness :
  fs corrupted !! model_path auth "s1" = Some (WavFile 16000 genuine) /\
  continuous_verification (H1 := W_genuine) auth "s1" (Some 2) corrupted
  = (Raise UnpicklingError, corrupted).
Proof.
  assert (Hfile : fs corrupted !! model_path auth "s1" = Some (WavFile 16000 genuine))
    by (vm_compute; reflexivity).
  split; [exact Hfile|].
  apply (continuous_verification_corrupt_profile (H1 := W_genuine) auth "s1" 2
           corrupted 16000 genuine Hfile).
  lia.
Defined.

End More_runs_of_Sim.
